(** * AI-mom: the sense -> infer -> react loop of [src/App.jsx]

    A shallow embedding of the [App] component: its React state and refs,
    the handlers [toggleMonitoring], [analyzeFrame], [speakText] and
    [logEvent], and the host events that drive them (clicks, interval
    ticks, settling promises, the end of an utterance).

    The browser and the network are the environment.  What a host call
    answers (what [fetch] settles to, what [response.json()] settles to,
    what [JSON.parse] returns or throws, whether [addDoc] is rejected) is
    carried by the event that delivers the answer; the component's own
    control flow, its [try]/[catch] and its state updates are embedded as
    they are written. *)

From Stdlib Require Import Floats Ascii.
From stdpp Require Import gmap strings list.

Set Default Proof Using "Type".
#[local] Set Warnings "-register-all,-inexact-float".
#[local] Open Scope string_scope.

(** ** JavaScript values *)

Module JS.

(** What [JSON.parse] and [response.json()] can produce.  Numbers are IEEE
    binary64, as in the language.  An object lists its own properties. *)
Inductive json :=
| JNull
| JBool (b : bool)
| JNum (n : float)
| JStr (s : string)
| JArr (elems : list json)
| JObj (members : list (string * json)).

(** A value read from a property may also be [undefined]. *)
Inductive value :=
| undefined
| of_json (j : json).

Definition str (s : string) : value := of_json (JStr s).

(** What is thrown: the program only logs it, so the constructor tells the
    kind ([fetch] rejects with a [TypeError], [JSON.parse] throws a
    [SyntaxError], a read on [undefined] or [null] a [TypeError]). *)
Inductive exn :=
| TypeError
| SyntaxError
| DOMException (name : string)
| FirebaseError (code : string).

(** How the evaluation of an expression ends. *)
Inductive completion (A : Type) :=
| Normal (a : A)
| Throw (e : exn).
Arguments Normal {A} a.
Arguments Throw {A} e.

(** How a promise settles. *)
Inductive settled (A : Type) :=
| Fulfilled (a : A)
| Rejected (e : exn).
Arguments Fulfilled {A} a.
Arguments Rejected {A} e.

Fixpoint own (members : list (string * json)) (k : string) : value :=
  match members with
  | [] => undefined
  | (k', j) :: rest => if String.eqb k' k then of_json j else own rest k
  end.

(** [v.k] for the property names this program reads ([candidates],
    [content], [parts], [text], [status], [message]).  None of them is
    defined on a built-in prototype, so on an array, a string, a number
    or a boolean the read gives [undefined]; on [null] and [undefined]
    it throws. *)
Definition get (v : value) (k : string) : completion value :=
  match v with
  | undefined => Throw TypeError
  | of_json JNull => Throw TypeError
  | of_json (JObj members) => Normal (own members k)
  | of_json _ => Normal undefined
  end.

(** [v[0]]. *)
Definition get0 (v : value) : completion value :=
  match v with
  | undefined => Throw TypeError
  | of_json JNull => Throw TypeError
  | of_json (JObj members) => Normal (own members "0")
  | of_json (JArr []) => Normal undefined
  | of_json (JArr (j :: _)) => Normal (of_json j)
  | of_json (JStr EmptyString) => Normal undefined
  | of_json (JStr (String c _)) => Normal (str (String c EmptyString))
  | of_json _ => Normal undefined
  end.

(** [v === s] for a string literal [s]. *)
Definition strict_eq_str (v : value) (s : string) : bool :=
  match v with
  | of_json (JStr s') => String.eqb s' s
  | _ => false
  end.

(** [haystack.includes(needle)]. *)
Fixpoint includes (haystack needle : string) : bool :=
  String.prefix needle haystack
  || match haystack with
     | EmptyString => false
     | String _ rest => includes rest needle
     end.

(** [s.split(',')]. *)
Fixpoint split_comma (s : string) : list string :=
  match s with
  | EmptyString => [EmptyString]
  | String c rest =>
      if Ascii.eqb c ","%char then EmptyString :: split_comma rest
      else match split_comma rest with
           | [] => [String c EmptyString]
           | piece :: pieces => String c piece :: pieces
           end
  end.

End JS.
Import JS.

(** ** The page: React state, refs and the host objects the component uses *)

(** [mode]: ['homework'] or ['eating']. *)
Inductive Mode := homework | eating.

(** [status]: the five strings the component passes to [setStatus]. *)
Inductive Status := idle | analyzing | good | warning | error.

(** The two template literals of [analyzeFrame], by name. *)
Inductive Prompt := EatingPrompt | HomeworkPrompt.

(** A camera stream: the size of its frames and what the JPEG encoder makes
    of the current one (base64). *)
Record MediaStream := {
  frame_width : nat;
  frame_height : nat;
  frame_jpeg : string
}.

(** The [<video>] element.  Without a stream its intrinsic size is 0 x 0. *)
Record Video := { srcObject : option MediaStream }.

Definition videoWidth (v : Video) : nat :=
  match srcObject v with Some s => frame_width s | None => 0 end.

Definition videoHeight (v : Video) : nat :=
  match srcObject v with Some s => frame_height s | None => 0 end.

(** The hidden [<canvas>]; [bitmap] is its content as the encoder gives it. *)
Record Canvas := { width : nat; height : nat; bitmap : string }.

(** [ctx.drawImage(video, 0, 0, canvas.width, canvas.height)]: a video with
    no frame to give draws nothing, and nothing is thrown. *)
Definition drawImage (v : Video) (c : Canvas) : Canvas :=
  match srcObject v with
  | Some s => {| width := width c; height := height c; bitmap := frame_jpeg s |}
  | None => c
  end.

(** [canvas.toDataURL('image/jpeg', 0.6)]: a canvas with no pixels gives
    the string [data:,]. *)
Definition toDataURL (c : Canvas) : string :=
  if Nat.eqb (width c) 0 || Nat.eqb (height c) 0 then "data:,"
  else "data:image/jpeg;base64," +:+ bitmap c.

Record Voice := { name : string }.

Record Utterance := {
  text : value;
  rate : float;
  pitch : float;
  voice : option Voice
}.

(** [window.speechSynthesis]: the utterances handed to [speak] and not yet
    finished, oldest first.  [speaking] holds while there is one. *)
Record Synth := { getVoices : list Voice; queue : list Utterance }.

Definition speaking (s : Synth) : bool :=
  match queue s with [] => false | _ :: _ => true end.

(** [synth.speak(utterance)]. *)
Definition speak (u : Utterance) (s : Synth) : Synth :=
  {| getVoices := getVoices s; queue := queue s ++ [u] |}.

(** The Firestore handle [db], with [auth.currentUser.uid] when signed in. *)
Record Firestore := { currentUser : option string }.

(** The document [logEvent] writes to [monitor_logs]; its [timestamp] is
    the server's and is left out. *)
Record Doc := {
  doc_mode : Mode;
  doc_message : value;
  doc_type : string;
  doc_uid : string
}.

(** The body of the POST to the inference API. *)
Record Request := {
  req_key : string;
  req_prompt : Prompt;
  req_image : option string
}.

(** What [fetch] resolves with.  The component reads nothing of it but its
    body. *)
Record Response := { http_status : nat }.

(** [response.ok]: the status is in the range 200-299. *)
Definition ok (r : Response) : bool :=
  (200 <=? http_status r)%nat && (http_status r <=? 299)%nat.

(** What the callback given to [setInterval] closed over: the [mode] and
    [apiKey] of the render that started monitoring. *)
Record Closure := { c_mode : Mode; c_apiKey : string }.

(** Where a running [analyzeFrame] is suspended. *)
Inductive Stage :=
| AwaitFetch
| AwaitJson (response : Response).

Record Pending := { captured : Closure; stage : Stage }.

(** What the component does to the outside, and the calls of its two
    reaction functions. *)
Inductive Effect :=
| Alert (msg : string)
| ConsoleError (label : string) (e : exn)
| SetInterval (id : nat) (ms : N)
| ClearInterval (id : option nat)
| Fetch (cycle : nat) (req : Request)
| CallSpeakText (t : value)
| SynthSpeak (u : Utterance)
| CallLogEvent (message : value) (type : string)
| AddDoc (doc : Doc).

(** [useState] cells. *)
Record State := {
  isActive : bool;
  mode : Mode;
  status : Status;
  lastMessage : value;
  settingsOpen : bool;
  apiKey : string
}.

(** [useRef] cells. *)
Record Refs := {
  videoRef : option Video;
  canvasRef : option Canvas;
  intervalRef : option nat
}.

(** The host: speech device, sink, live interval timers, suspended cycles,
    writes not yet settled, and the log of effects (latest first). *)
Record Host := {
  speechSynthesis : option Synth;
  db : option Firestore;
  timers : gmap nat Closure;
  next_timer : nat;
  inflight : gmap nat Pending;
  next_cycle : nat;
  pending_writes : nat;
  trace : list Effect
}.

Record World := { state : State; refs : Refs; host : Host }.

(** *** Field updates *)

Definition set_isActive (b : bool) (s : State) : State :=
  {| isActive := b; mode := mode s; status := status s;
     lastMessage := lastMessage s; settingsOpen := settingsOpen s;
     apiKey := apiKey s |}.

Definition set_mode (m : Mode) (s : State) : State :=
  {| isActive := isActive s; mode := m; status := status s;
     lastMessage := lastMessage s; settingsOpen := settingsOpen s;
     apiKey := apiKey s |}.

Definition set_status (x : Status) (s : State) : State :=
  {| isActive := isActive s; mode := mode s; status := x;
     lastMessage := lastMessage s; settingsOpen := settingsOpen s;
     apiKey := apiKey s |}.

Definition set_lastMessage (v : value) (s : State) : State :=
  {| isActive := isActive s; mode := mode s; status := status s;
     lastMessage := v; settingsOpen := settingsOpen s;
     apiKey := apiKey s |}.

Definition set_settingsOpen (b : bool) (s : State) : State :=
  {| isActive := isActive s; mode := mode s; status := status s;
     lastMessage := lastMessage s; settingsOpen := b;
     apiKey := apiKey s |}.

Definition set_apiKey (k : string) (s : State) : State :=
  {| isActive := isActive s; mode := mode s; status := status s;
     lastMessage := lastMessage s; settingsOpen := settingsOpen s;
     apiKey := k |}.

Definition set_videoRef (v : option Video) (r : Refs) : Refs :=
  {| videoRef := v; canvasRef := canvasRef r; intervalRef := intervalRef r |}.

Definition set_canvasRef (c : option Canvas) (r : Refs) : Refs :=
  {| videoRef := videoRef r; canvasRef := c; intervalRef := intervalRef r |}.

Definition set_intervalRef (i : option nat) (r : Refs) : Refs :=
  {| videoRef := videoRef r; canvasRef := canvasRef r; intervalRef := i |}.

Definition set_speechSynthesis (s : option Synth) (h : Host) : Host :=
  {| speechSynthesis := s; db := db h; timers := timers h;
     next_timer := next_timer h; inflight := inflight h;
     next_cycle := next_cycle h; pending_writes := pending_writes h;
     trace := trace h |}.

Definition set_timers (t : gmap nat Closure) (n : nat) (h : Host) : Host :=
  {| speechSynthesis := speechSynthesis h; db := db h; timers := t;
     next_timer := n; inflight := inflight h;
     next_cycle := next_cycle h; pending_writes := pending_writes h;
     trace := trace h |}.

Definition set_inflight (f : gmap nat Pending) (n : nat) (h : Host) : Host :=
  {| speechSynthesis := speechSynthesis h; db := db h; timers := timers h;
     next_timer := next_timer h; inflight := f;
     next_cycle := n; pending_writes := pending_writes h;
     trace := trace h |}.

Definition set_pending_writes (n : nat) (h : Host) : Host :=
  {| speechSynthesis := speechSynthesis h; db := db h; timers := timers h;
     next_timer := next_timer h; inflight := inflight h;
     next_cycle := next_cycle h; pending_writes := n;
     trace := trace h |}.

Definition emit (e : Effect) (h : Host) : Host :=
  {| speechSynthesis := speechSynthesis h; db := db h; timers := timers h;
     next_timer := next_timer h; inflight := inflight h;
     next_cycle := next_cycle h; pending_writes := pending_writes h;
     trace := e :: trace h |}.

Definition upd_state (f : State -> State) (w : World) : World :=
  {| state := f (state w); refs := refs w; host := host w |}.

Definition upd_refs (f : Refs -> Refs) (w : World) : World :=
  {| state := state w; refs := f (refs w); host := host w |}.

Definition upd_host (f : Host -> Host) (w : World) : World :=
  {| state := state w; refs := refs w; host := f (host w) |}.

(** ** Handlers: state passing with exceptions *)

(** A piece of handler code runs on the world and either completes or
    throws; what it did before throwing stays done. *)
Definition M (A : Type) : Type := World -> completion A * World.

#[export] Instance M_ret : MRet M := fun A a w => (Normal a, w).

#[export] Instance M_bind : MBind M := fun A B f m w =>
  match m w with
  | (Normal a, w') => f a w'
  | (Throw e, w') => (Throw e, w')
  end.

Definition throw {A} (e : exn) : M A := fun w => (Throw e, w).

Definition lift {A} (c : completion A) : M A := fun w => (c, w).

Definition gets {A} (f : World -> A) : M A := fun w => (Normal (f w), w).

Definition modify (f : World -> World) : M unit := fun w => (Normal tt, f w).

(** [await p] at the point where [p] has settled. *)
Definition await {A} (p : settled A) : M A :=
  match p with
  | Fulfilled a => mret a
  | Rejected e => throw e
  end.

(** [try { body } catch (e) { handler }]. *)
Definition try_catch (body : M unit) (handler : exn -> M unit) : M unit :=
  fun w =>
    match body w with
    | (Normal a, w') => (Normal a, w')
    | (Throw e, w') => handler e w'
    end.

Definition exec {A} (m : M A) (w : World) : World := snd (m w).

Definition effect (e : Effect) : M unit := modify (upd_host (emit e)).

Definition setIsActive (b : bool) : M unit := modify (upd_state (set_isActive b)).
Definition setMode (m : Mode) : M unit := modify (upd_state (set_mode m)).
Definition setStatus (s : Status) : M unit := modify (upd_state (set_status s)).
Definition setLastMessage (v : value) : M unit :=
  modify (upd_state (set_lastMessage v)).
Definition setSettingsOpen (b : bool) : M unit :=
  modify (upd_state (set_settingsOpen b)).
Definition setApiKey (k : string) : M unit := modify (upd_state (set_apiKey k)).

(** [setInterval(callback, ms)]: a fresh id, live until cleared. *)
Definition setInterval (callback : Closure) (ms : N) : M nat :=
  id ← gets (fun w => next_timer (host w));
  modify (upd_host (fun h => set_timers (<[id := callback]> (timers h)) (S id) h)) ;;
  effect (SetInterval id ms) ;;
  mret id.

(** [clearInterval(id)]: the timer fires no more; an id that is not live,
    or [null], is ignored. *)
Definition clearInterval (id : option nat) : M unit :=
  match id with
  | Some i =>
      modify (upd_host (fun h => set_timers (delete i (timers h)) (next_timer h) h))
  | None => mret tt
  end ;;
  effect (ClearInterval id).

(** [!s] for a string. *)
Definition falsy (s : string) : bool :=
  match s with EmptyString => true | String _ _ => false end.

(** *** [startCamera], once [getUserMedia] has settled *)
Definition startCamera (r : settled MediaStream) : M unit :=
  try_catch
    (stream ← await r;
     v ← gets (fun w => videoRef (refs w));
     match v with
     | Some _ =>
         modify (upd_refs (set_videoRef (Some {| srcObject := Some stream |})))
     | None => mret tt
     end)
    (fun err =>
       effect (ConsoleError "Camera Error:" err) ;;
       setLastMessage (str "Camera unavailable.")).

(** *** [speakText] *)

Definition is_female (v : Voice) : bool :=
  (includes (name v) "Female" || includes (name v) "Samantha"
   || includes (name v) "Google US English")
  && negb (includes (name v) "Male").

Definition speakText (t : value) : M unit :=
  effect (CallSpeakText t) ;;
  synth ← gets (fun w => speechSynthesis (host w));
  match synth with
  | None => mret tt
  | Some s =>
      if speaking s then mret tt
      else
        let utterance :=
          {| text := t; rate := 1.0; pitch := 1.1; voice := None |} in
        let femaleVoice := List.find is_female (getVoices s) in
        let utterance :=
          match femaleVoice with
          | Some v =>
              {| text := text utterance; rate := rate utterance;
                 pitch := pitch utterance; voice := Some v |}
          | None => utterance
          end in
        modify (upd_host (set_speechSynthesis (Some (speak utterance s)))) ;;
        effect (SynthSpeak utterance)
  end.

(** *** [logEvent], up to its [await] *)

(** [auth?.currentUser?.uid || 'anon']. *)
Definition uid_or_anon (fs : Firestore) : string :=
  match currentUser fs with
  | Some u => if falsy u then "anon" else u
  | None => "anon"
  end.

Definition logEvent (cl : Closure) (message : value) (type : string) : M unit :=
  effect (CallLogEvent message type) ;;
  d ← gets (fun w => db (host w));
  match d with
  | None => mret tt
  | Some fs =>
      effect (AddDoc {| doc_mode := c_mode cl; doc_message := message;
                        doc_type := type; doc_uid := uid_or_anon fs |}) ;;
      modify (upd_host (fun h => set_pending_writes (S (pending_writes h)) h))
  end.

(** [logEvent] after [await addDoc(...)]: the [catch] only logs. *)
Definition logEvent_settled (r : settled unit) : M unit :=
  try_catch (await r) (fun e => effect (ConsoleError "Log error" e)).

(** *** [toggleMonitoring] *)
Definition toggleMonitoring : M unit :=
  active ← gets (fun w => isActive (state w));
  if (active : bool) then
    id ← gets (fun w => intervalRef (refs w));
    clearInterval id ;;
    setIsActive false ;;
    setStatus idle ;;
    setLastMessage (str "Monitoring paused.")
  else
    key ← gets (fun w => apiKey (state w));
    if falsy key then
      setSettingsOpen true ;;
      effect (Alert "Please enter a Gemini API Key in settings.")
    else
      setIsActive true ;;
      setLastMessage (str "Mom is watching...") ;;
      m ← gets (fun w => mode (state w));
      id ← setInterval {| c_mode := m; c_apiKey := key |} 6000;
      modify (upd_refs (set_intervalRef (Some id))).

(** *** [analyzeFrame] *)

(** The function suspends at [await fetch(...)] and at
    [await response.json()]; both lie inside its [try], so it is cut in
    three pieces and the last two run under the same [catch]. *)

Definition suspend (cl : Closure) (id : nat) (st : Stage) : M unit :=
  modify (upd_host (fun h =>
    set_inflight (<[id := {| captured := cl; stage := st |}]> (inflight h))
                 (next_cycle h) h)).

(** [catch (error) { console.error("AI Error:", error); setStatus('error'); }] *)
Definition analyzeFrame_catch (e : exn) : M unit :=
  effect (ConsoleError "AI Error:" e) ;;
  setStatus error.

(** The capture of a frame: the canvas takes the size of the video, the
    video is drawn on it, and [base64Image] is what follows the first comma
    of the data URL ([undefined] when there is none).  None of these host
    calls throws for a video element, with or without a stream. *)
Definition capture (video : Video) : Canvas * option string :=
  let canvas :=
    {| width := videoWidth video; height := videoHeight video;
       bitmap := "" |} in
  let canvas := drawImage video canvas in
  (canvas, split_comma (toDataURL canvas) !! 1).

(** From the entry to the call of [fetch]. *)
Definition analyzeFrame (cl : Closure) : M unit :=
  v ← gets (fun w => videoRef (refs w));
  c ← gets (fun w => canvasRef (refs w));
  match v, c with
  | Some video, Some _ =>
      setStatus analyzing ;;
      let (canvas, base64Image) := capture video in
      modify (upd_refs (set_canvasRef (Some canvas))) ;;
      let prompt :=
        match c_mode cl with
        | eating => EatingPrompt
        | homework => HomeworkPrompt
        end in
      id ← gets (fun w => next_cycle (host w));
      modify (upd_host (fun h => set_inflight (inflight h) (S id) h)) ;;
      effect (Fetch id {| req_key := c_apiKey cl; req_prompt := prompt;
                          req_image := base64Image |}) ;;
      suspend cl id AwaitFetch
  | _, _ => mret tt
  end.

(** From the settling of [fetch] to the call of [response.json()]. *)
Definition analyzeFrame_fetched (cl : Closure) (id : nat)
    (r : settled Response) : M unit :=
  try_catch
    (response ← await r;
     suspend cl id (AwaitJson response))
    analyzeFrame_catch.

(** [data.candidates[0].content.parts[0].text] *)
Definition candidate_text (data : json) : completion value :=
  match get (of_json data) "candidates" with
  | Throw e => Throw e
  | Normal candidates =>
  match get0 candidates with
  | Throw e => Throw e
  | Normal candidate =>
  match get candidate "content" with
  | Throw e => Throw e
  | Normal content =>
  match get content "parts" with
  | Throw e => Throw e
  | Normal parts =>
  match get0 parts with
  | Throw e => Throw e
  | Normal part => get part "text"
  end end end end end.

(** From the settling of [response.json()] to the end.  [parsed] is what
    [JSON.parse] does on the candidate text. *)
Definition analyzeFrame_decoded (cl : Closure) (body : settled json)
    (parsed : completion json) : M unit :=
  try_catch
    (data ← await body;
     _ ← lift (candidate_text data);
     result ← lift parsed;
     st ← lift (get (of_json result) "status");
     if strict_eq_str st "bad" then
       setStatus warning ;;
       message ← lift (get (of_json result) "message");
       setLastMessage message ;;
       speakText message ;;
       logEvent cl message "violation"
     else
       setStatus good ;;
       setLastMessage (str "Mom is happy."))
    analyzeFrame_catch.

(** ** Events *)

(** What happens to the page.  An event that settles a promise carries what
    the host answers: [FetchSettles] the outcome of [fetch], [JsonSettles]
    the outcome of [response.json()] together with what [JSON.parse] does
    on the candidate text of that body, [AddDocSettles] the outcome of the
    write. *)
Inductive Event :=
| CameraSettles (r : settled MediaStream)
| ClickToggle
| ClickMode (m : Mode)
| ClickSettings
| ChangeApiKey (k : string)
| ClickSaveClose
| Tick (timer : nat)
| FetchSettles (cycle : nat) (r : settled Response)
| JsonSettles (cycle : nat) (body : settled json) (parsed : completion json)
| AddDocSettles (r : settled unit)
| UtteranceEnds.

Definition resume (id : nat) : M unit :=
  modify (upd_host (fun h => set_inflight (delete id (inflight h)) (next_cycle h) h)).

(** What the page runs on each event.  The mode buttons are rendered only
    while monitoring is off, the key input only while the settings panel
    is open. *)
Definition handle (ev : Event) : M unit :=
  match ev with
  | CameraSettles r => startCamera r
  | ClickToggle => toggleMonitoring
  | ClickMode m =>
      active ← gets (fun w => isActive (state w));
      if (active : bool) then mret tt else setMode m
  | ClickSettings =>
      o ← gets (fun w => settingsOpen (state w));
      setSettingsOpen (negb o)
  | ChangeApiKey k =>
      o ← gets (fun w => settingsOpen (state w));
      if (o : bool) then setApiKey k else mret tt
  | ClickSaveClose =>
      o ← gets (fun w => settingsOpen (state w));
      if (o : bool) then setSettingsOpen false else mret tt
  | Tick timer =>
      t ← gets (fun w => timers (host w) !! timer);
      match t with
      | Some cl => analyzeFrame cl
      | None => mret tt
      end
  | FetchSettles id r =>
      p ← gets (fun w => inflight (host w) !! id);
      match p with
      | Some {| captured := cl; stage := AwaitFetch |} =>
          resume id ;; analyzeFrame_fetched cl id r
      | _ => mret tt
      end
  | JsonSettles id body parsed =>
      p ← gets (fun w => inflight (host w) !! id);
      match p with
      | Some {| captured := cl; stage := AwaitJson _ |} =>
          resume id ;; analyzeFrame_decoded cl body parsed
      | _ => mret tt
      end
  | AddDocSettles r =>
      n ← gets (fun w => pending_writes (host w));
      match n with
      | O => mret tt
      | S n' =>
          modify (upd_host (set_pending_writes n')) ;;
          logEvent_settled r
      end
  | UtteranceEnds =>
      modify (upd_host (fun h =>
        match speechSynthesis h with
        | Some s =>
            set_speechSynthesis
              (Some {| getVoices := getVoices s; queue := tail (queue s) |}) h
        | None => h
        end))
  end.

Definition step (w : World) (ev : Event) : World := exec (handle ev) w.

Definition run (w : World) (evs : list Event) : World := fold_left step evs w.

(** The page after its first render: [useState] defaults, the two elements
    in their refs, no stream yet. *)
Definition mount (GEMINI_API_KEY : string) (synth : option Synth)
    (firestore : option Firestore) : World :=
  {| state := {| isActive := false; mode := homework; status := idle;
                 lastMessage := str "Mom is ready."; settingsOpen := false;
                 apiKey := GEMINI_API_KEY |};
     refs := {| videoRef := Some {| srcObject := None |};
                canvasRef := Some {| width := 300; height := 150; bitmap := "" |};
                intervalRef := None |};
     host := {| speechSynthesis := synth; db := firestore; timers := ∅;
                next_timer := 1; inflight := ∅; next_cycle := 0;
                pending_writes := 0; trace := [] |} |}.

(** One cycle run without interruption: the interval fires, [fetch]
    settles, [response.json()] settles. *)
Definition cycle (w : World) (timer : nat) (r : settled Response)
    (body : settled json) (parsed : completion json) : World :=
  let id := next_cycle (host w) in
  run w [Tick timer; FetchSettles id r; JsonSettles id body parsed].

(** The request a cycle sends: key and mode of the closure, the frame on
    the canvas. *)
Definition request_of (cl : Closure) (video : Video) : Request :=
  {| req_key := c_apiKey cl;
     req_prompt := match c_mode cl with
                   | eating => EatingPrompt
                   | homework => HomeworkPrompt
                   end;
     req_image := (capture video).2 |}.

(** The world in which the last piece of a cycle runs: the frame is on the
    canvas, the request is out, the status is [analyzing]. *)
Definition sent (cl : Closure) (video : Video) (w : World) : World :=
  let id := next_cycle (host w) in
  {| state := set_status analyzing (state w);
     refs := set_canvasRef (Some (capture video).1) (refs w);
     host := emit (Fetch id (request_of cl video))
               (set_inflight (delete id (inflight (host w))) (S id) (host w)) |}.

(** *** Reading the log *)

(** Calls of [speakText], latest first. *)
Definition announce_calls (tr : list Effect) : list value :=
  omap (fun e => match e with CallSpeakText t => Some t | _ => None end) tr.

(** Calls of [logEvent], latest first. *)
Definition record_calls (tr : list Effect) : list (value * string) :=
  omap (fun e => match e with
                 | CallLogEvent m ty => Some (m, ty)
                 | _ => None
                 end) tr.

(** Utterances handed to the speech device, latest first. *)
Definition deliveries (tr : list Effect) : list Utterance :=
  omap (fun e => match e with SynthSpeak u => Some u | _ => None end) tr.

(** Documents handed to the sink, latest first. *)
Definition writes (tr : list Effect) : list Doc :=
  omap (fun e => match e with AddDoc d => Some d | _ => None end) tr.

(** Requests sent to the inference API, latest first. *)
Definition requests (tr : list Effect) : list Request :=
  omap (fun e => match e with Fetch _ r => Some r | _ => None end) tr.

(** The utterances the device holds. *)
Definition utterances (w : World) : list Utterance :=
  match speechSynthesis (host w) with
  | Some s => queue s
  | None => []
  end.

(** The points at which the client side of a cycle throws inside the
    [try]: [fetch] rejects, [response.json()] rejects, the path to the
    candidate text meets [undefined] or [null], [JSON.parse] throws on the
    text, or the parsed verdict is [null] and its [status] cannot be
    read. *)
Inductive client_throws :
  settled Response -> settled json -> completion json -> exn -> Prop :=
| fetch_rejects e body parsed :
    client_throws (Rejected e) body parsed e
| json_rejects resp e parsed :
    client_throws (Fulfilled resp) (Rejected e) parsed e
| no_candidate_text resp data e parsed :
    candidate_text data = Throw e ->
    client_throws (Fulfilled resp) (Fulfilled data) parsed e
| text_not_json resp data t e :
    candidate_text data = Normal t ->
    client_throws (Fulfilled resp) (Fulfilled data) (Throw e) e
| verdict_null resp data t :
    candidate_text data = Normal t ->
    client_throws (Fulfilled resp) (Fulfilled data) (Normal JNull) TypeError.

(** *** The verdict contract, in the specification's words *)

(** The two failures the specification tells apart. *)
Inductive Failure := MalformedResponse | TransportError.

(** A payload is per contract when it is an object whose [status] is
    ["good"] or ["bad"] and whose [message] is a string. *)
Definition per_contract (j : json) : bool :=
  match j with
  | JObj members =>
      (strict_eq_str (own members "status") "good"
       || strict_eq_str (own members "status") "bad")
      && match own members "message" with
         | of_json (JStr _) => true
         | _ => false
         end
  | _ => false
  end.

(** The failure the specification assigns to an answer of the network:
    [TransportError] when the call fails or the HTTP status is not a
    success, [MalformedResponse] when the payload is not per-contract
    JSON, none otherwise. *)
Definition spec_failure (r : settled Response) (body : settled json)
    (parsed : completion json) : option Failure :=
  match r with
  | Rejected _ => Some TransportError
  | Fulfilled resp =>
      if negb (ok resp) then Some TransportError
      else match body with
           | Rejected _ => Some MalformedResponse
           | Fulfilled data =>
               match candidate_text data, parsed with
               | Normal _, Normal j =>
                   if per_contract j then None else Some MalformedResponse
               | _, _ => Some MalformedResponse
               end
           end
  end.

(** *** Sample answers *)

Definition verdict (st message : string) : json :=
  JObj [("status", JStr st); ("message", JStr message)].

(** A response body whose first candidate carries the text [t]. *)
Definition reply (t : string) : json :=
  JObj [("candidates",
         JArr [JObj [("content",
                      JObj [("parts", JArr [JObj [("text", JStr t)]])])]])].

(** The text [{"status":st,"message":message}]. *)
Definition quoted (s : string) : string :=
  String "034" (s +:+ String "034" EmptyString).

Definition verdict_text (st message : string) : string :=
  "{" +:+ quoted "status" +:+ ":" +:+ quoted st +:+ ","
  +:+ quoted "message" +:+ ":" +:+ quoted message +:+ "}".

Definition http_200 : Response := {| http_status := 200 |}.

Definition http_500 : Response := {| http_status := 500 |}.

Definition samantha : Synth :=
  {| getVoices := [{| name := "Alex" |}; {| name := "Samantha" |}]; queue := [] |}.

Definition camera : MediaStream :=
  {| frame_width := 640; frame_height := 480; frame_jpeg := "/9j/4AAQSkZJRg" |}.

(** A page with a key, a camera, a speech device and a sink, monitoring
    switched on: timer 1 is live and closes over [homework] and the key. *)
Definition watching : World :=
  run (mount "key" (Some samantha) (Some {| currentUser := None |}))
      [CameraSettles (Fulfilled camera); ClickToggle].

Definition watching_closure : Closure :=
  {| c_mode := homework; c_apiKey := "key" |}.

Definition watching_canvas : Canvas :=
  {| width := 300; height := 150; bitmap := "" |}.

(** The same page when the camera was refused: the video element has no
    stream. *)
Definition watching_blind : World :=
  run (mount "key" (Some samantha) (Some {| currentUser := None |}))
      [CameraSettles (Rejected (DOMException "NotAllowedError")); ClickToggle].

(** ** Configuration, read when the module loads *)

(** [getEnvVar]: [import.meta.env] is the table of variables the bundler
    exposes, all strings, or is missing.  The reads cannot throw on such a
    table, so the [catch] has nothing to take. *)
Definition getEnvVar (env : option (gmap string string)) (key : string) : string :=
  match env with
  | Some vars =>
      match vars !! key with
      | Some v => if falsy v then "" else v
      | None => ""
      end
  | None => ""
  end.

(** The Firebase block: nothing is done without [FIREBASE_CONFIG_RAW];
    otherwise the configuration is parsed and the SDK set up, and when
    either throws the [catch] warns and [db] stays [null].  [parsed] is what
    [JSON.parse] does on the raw text, [sdk] what [initializeApp],
    [getAuth] and [getFirestore] give.  The result is [db] and the
    warnings logged. *)
Definition firebase_init (FIREBASE_CONFIG_RAW : string)
    (parsed : completion json) (sdk : completion Firestore)
    : option Firestore * list string :=
  if falsy FIREBASE_CONFIG_RAW then (None, [])
  else
    match parsed with
    | Normal _ =>
        match sdk with
        | Normal fs => (Some fs, [])
        | Throw _ =>
            (None, ["Firebase config invalid or missing. Logs will not be saved."])
        end
    | Throw _ =>
        (None, ["Firebase config invalid or missing. Logs will not be saved."])
    end.

(** The page as loaded from an environment. *)
Definition boot (env : option (gmap string string)) (parsed : completion json)
    (sdk : completion Firestore) (synth : option Synth) : World :=
  mount (getEnvVar env "VITE_GEMINI_API_KEY") synth
    (firebase_init (getEnvVar env "VITE_FIREBASE_CONFIG") parsed sdk).1.

(** The interval is live exactly while monitoring is on: one timer, the
    one [intervalRef] names, closing over the current mode and a key that
    is not empty. *)
Definition timer_ok (w : World) : Prop :=
  match isActive (state w) with
  | true =>
      exists id k,
        intervalRef (refs w) = Some id
        /\ falsy k = false
        /\ timers (host w) = {[ id := {| c_mode := mode (state w); c_apiKey := k |} ]}
  | false => timers (host w) = ∅
  end.

(** The prompt [analyzeFrame] builds for a mode. *)
Definition prompt_of (m : Mode) : Prompt :=
  match m with
  | eating => EatingPrompt
  | homework => HomeworkPrompt
  end.

(** The two events that can change [isActive], [mode] or the timers. *)
Definition is_toggle_or_mode (ev : Event) : bool :=
  match ev with
  | ClickToggle | ClickMode _ => true
  | _ => false
  end.


(** ** What the component renders *)

(** The parts of the returned markup that depend on state: the border of
    the camera card, the badge on it, the status line and its colour, the
    two mode buttons (rendered only while monitoring is off), the label of
    the main button, and the settings panel with its key input. *)
Record View := {
  card_border : string;
  badge : string;
  status_line : value;
  status_colour : string;
  mode_buttons : option Mode;
  main_button : string;
  settings_panel : option string
}.

Definition render (w : World) : View :=
  let s := state w in
  {| card_border :=
       match status s with
       | warning => "border-red-500"
       | good => "border-pink-500"
       | _ => "border-slate-800"
       end;
     badge := if isActive s then "MOM IS WATCHING" else "OFFLINE";
     status_line := lastMessage s;
     status_colour :=
       match status s with
       | warning => "text-red-400"
       | good => "text-pink-400"
       | _ => "text-white"
       end;
     mode_buttons := if isActive s then None else Some (mode s);
     main_button := if isActive s then "Stop Monitoring" else "Call Mom";
     settings_panel := if settingsOpen s then Some (apiKey s) else None |}.

(** * Properties *)

#[local] Arguments candidate_text : simpl never.
#[local] Arguments get : simpl never.
#[local] Arguments speaking : simpl never.
#[local] Arguments split_comma : simpl never.
#[local] Arguments toDataURL : simpl never.

Ltac unfold_m :=
  unfold exec, speakText, logEvent, logEvent_settled, analyzeFrame_catch,
    suspend, resume, setInterval, clearInterval, try_catch, effect,
    setStatus, setLastMessage, setIsActive, setSettingsOpen, setMode,
    setApiKey, await, throw, lift, gets, modify, mbind, M_bind, mret, M_ret
    in *.

Example includes_female : includes "Microsoft Zira Female" "Female" = true.
Proof. reflexivity. Qed.

Example includes_is_case_sensitive : includes "Female" "Male" = false.
Proof. reflexivity. Qed.

Example split_data_url :
  split_comma "data:image/jpeg;base64,AAA" = ["data:image/jpeg;base64"; "AAA"].
Proof. reflexivity. Qed.

Example split_empty_url : split_comma "data:," = ["data:"; ""].
Proof. reflexivity. Qed.

Example verdict_text_sample :
  String.length (verdict_text "good" "ok") = 32
  /\ String.get 1 (verdict_text "good" "ok") = Some "034"%char.
Proof. split; reflexivity. Qed.

Example candidate_text_reply t : candidate_text (reply t) = Normal (str t).
Proof. reflexivity. Qed.

Example candidate_text_error_body :
  candidate_text (JObj [("error", JObj [("code", JNum 400)])]) = Throw TypeError.
Proof. reflexivity. Qed.

(** ** The pieces of [analyzeFrame] on an arbitrary world *)

Section Decoded.

Variables (cl : Closure) (w : World).

Lemma decoded_bad data t result message :
  candidate_text data = Normal t ->
  get (of_json result) "status" = Normal (str "bad") ->
  get (of_json result) "message" = Normal message ->
  let w' := exec (analyzeFrame_decoded cl (Fulfilled data) (Normal result)) w in
  state w' = set_lastMessage message (set_status warning (state w))
  /\ refs w' = refs w
  /\ announce_calls (trace (host w')) = message :: announce_calls (trace (host w))
  /\ record_calls (trace (host w'))
     = (message, "violation") :: record_calls (trace (host w))
  /\ requests (trace (host w')) = requests (trace (host w))
  /\ timers (host w') = timers (host w)
  /\ inflight (host w') = inflight (host w).
Proof.
  intros Ht Hs Hm. unfold analyzeFrame_decoded. unfold_m. cbn.
  rewrite Ht. cbn. rewrite Hs. cbn. rewrite Hm. cbn.
  destruct (speechSynthesis (host w)) as [s|]; cbn;
    [destruct (speaking s); cbn;
     [|destruct (find is_female (getVoices s)); cbn]|];
    destruct (db (host w)); cbn; auto 10.
Qed.

Lemma decoded_lenient data t result st :
  candidate_text data = Normal t ->
  get (of_json result) "status" = Normal st ->
  strict_eq_str st "bad" = false ->
  exec (analyzeFrame_decoded cl (Fulfilled data) (Normal result)) w
  = upd_state (fun s => set_lastMessage (str "Mom is happy.") (set_status good s)) w.
Proof.
  intros Ht Hs Hne. unfold analyzeFrame_decoded. unfold_m. cbn.
  rewrite Ht. cbn. rewrite Hs. cbn. rewrite Hne. reflexivity.
Qed.

Lemma decoded_throws resp body parsed e :
  client_throws (Fulfilled resp) body parsed e ->
  exec (analyzeFrame_decoded cl body parsed) w
  = upd_state (set_status error) (upd_host (emit (ConsoleError "AI Error:" e)) w).
Proof.
  intros H. unfold analyzeFrame_decoded. unfold_m.
  inversion H as [| |? ? ? ? Hc|? ? ? ? Hc|? ? ? Hc]; subst; cbn;
    rewrite ?Hc; reflexivity.
Qed.

End Decoded.

(** ** A whole cycle *)

(** *** Single steps *)

Lemma step_tick w timer cl video canvas :
  timers (host w) !! timer = Some cl ->
  videoRef (refs w) = Some video ->
  canvasRef (refs w) = Some canvas ->
  step w (Tick timer)
  = upd_host
      (fun h => set_inflight
                  (<[next_cycle (host w) := {| captured := cl; stage := AwaitFetch |}]>
                     (inflight h))
                  (S (next_cycle (host w))) h)
      (upd_host (emit (Fetch (next_cycle (host w)) (request_of cl video)))
         (upd_refs (set_canvasRef (Some (capture video).1))
            (upd_state (set_status analyzing) w))).
Proof.
  intros Ht Hv Hc. unfold step, handle, analyzeFrame. unfold_m. cbn.
  rewrite Ht, Hv, Hc. reflexivity.
Qed.

Lemma step_tick_dead w timer :
  timers (host w) !! timer = None -> step w (Tick timer) = w.
Proof.
  intros Ht. unfold step, handle. unfold_m. cbn. rewrite Ht. reflexivity.
Qed.

Lemma step_fetch_fulfilled w id cl resp :
  inflight (host w) !! id = Some {| captured := cl; stage := AwaitFetch |} ->
  step w (FetchSettles id (Fulfilled resp))
  = upd_host
      (fun h => set_inflight
                  (<[id := {| captured := cl; stage := AwaitJson resp |}]>
                     (delete id (inflight h)))
                  (next_cycle h) h) w.
Proof.
  intros Hp. unfold step, handle, analyzeFrame_fetched. unfold_m. cbn.
  rewrite Hp. reflexivity.
Qed.

Lemma step_fetch_rejected w id cl e :
  inflight (host w) !! id = Some {| captured := cl; stage := AwaitFetch |} ->
  step w (FetchSettles id (Rejected e))
  = upd_state (set_status error)
      (upd_host (emit (ConsoleError "AI Error:" e))
         (upd_host
            (fun h => set_inflight (delete id (inflight h)) (next_cycle h) h) w)).
Proof.
  intros Hp. unfold step, handle, analyzeFrame_fetched. unfold_m. cbn.
  rewrite Hp. reflexivity.
Qed.

Lemma step_json w id cl resp body parsed :
  inflight (host w) !! id = Some {| captured := cl; stage := AwaitJson resp |} ->
  step w (JsonSettles id body parsed)
  = exec (analyzeFrame_decoded cl body parsed)
      (upd_host
         (fun h => set_inflight (delete id (inflight h)) (next_cycle h) h) w).
Proof.
  intros Hp. unfold step, handle. unfold_m. cbn. rewrite Hp. reflexivity.
Qed.

Lemma step_json_gone w id body parsed :
  inflight (host w) !! id = None -> step w (JsonSettles id body parsed) = w.
Proof.
  intros Hp. unfold step, handle. unfold_m. cbn. rewrite Hp. reflexivity.
Qed.

Section Cycle.

Variables (w : World) (timer : nat) (cl : Closure) (video : Video) (canvas : Canvas).
Hypothesis live : timers (host w) !! timer = Some cl.
Hypothesis has_video : videoRef (refs w) = Some video.
Hypothesis has_canvas : canvasRef (refs w) = Some canvas.

Lemma cycle_fulfilled resp body parsed :
  cycle w timer (Fulfilled resp) body parsed
  = exec (analyzeFrame_decoded cl body parsed) (sent cl video w).
Proof using live has_video has_canvas.
  unfold cycle, run. cbn [fold_left].
  rewrite (step_tick _ _ _ _ _ live has_video has_canvas).
  rewrite (step_fetch_fulfilled _ _ cl); [|cbn; apply lookup_insert_eq].
  rewrite (step_json _ _ cl resp); [|cbn; apply lookup_insert_eq].
  f_equal. unfold sent, upd_host, upd_refs, upd_state, set_inflight, emit. cbn.
  rewrite !delete_insert_eq, delete_delete_eq. reflexivity.
Qed.

Lemma cycle_rejected e body parsed :
  cycle w timer (Rejected e) body parsed
  = upd_state (set_status error)
      (upd_host (emit (ConsoleError "AI Error:" e)) (sent cl video w)).
Proof using live has_video has_canvas.
  unfold cycle, run. cbn [fold_left].
  rewrite (step_tick _ _ _ _ _ live has_video has_canvas).
  rewrite (step_fetch_rejected _ _ cl); [|cbn; apply lookup_insert_eq].
  rewrite step_json_gone; [|cbn; apply lookup_delete_eq].
  unfold sent, upd_host, upd_refs, upd_state, set_inflight, emit. cbn.
  rewrite !delete_insert_eq. reflexivity.
Qed.

End Cycle.

Lemma strict_eq_str_ne v s : v <> str s -> strict_eq_str v s = false.
Proof.
  intros Hne. destruct v as [|[]]; try reflexivity. cbn.
  destruct (String.eqb_spec s0 s); [subst; contradiction | reflexivity].
Qed.

Lemma get_not_null j k : j <> JNull -> exists v, get (of_json j) k = Normal v.
Proof. intros Hne. destruct j; try contradiction; eexists; reflexivity. Qed.

(** ** Verdicts *)

(** C1: a cycle whose analysis returns a verdict with status ["bad"] and a
    message ends with status [warning] and that message as last message,
    calls [speakText] exactly once, with that message, and calls [logEvent]
    exactly once, with that message and the type ["violation"]. *)
Theorem bad_verdict_warns_announces_records
    w timer cl video canvas resp data t result message :
  timers (host w) !! timer = Some cl ->
  videoRef (refs w) = Some video ->
  canvasRef (refs w) = Some canvas ->
  candidate_text data = Normal t ->
  get (of_json result) "status" = Normal (str "bad") ->
  get (of_json result) "message" = Normal message ->
  let w' := cycle w timer (Fulfilled resp) (Fulfilled data) (Normal result) in
  status (state w') = warning
  /\ lastMessage (state w') = message
  /\ announce_calls (trace (host w')) = message :: announce_calls (trace (host w))
  /\ record_calls (trace (host w'))
     = (message, "violation") :: record_calls (trace (host w)).
Proof.
  intros Hl Hv Hc Ht Hs Hm w'. subst w'.
  rewrite (cycle_fulfilled _ _ _ _ _ Hl Hv Hc).
  destruct (decoded_bad cl (sent cl video w) _ _ _ _ Ht Hs Hm)
    as (Hst & _ & Ha & Hr & _).
  rewrite Hst, Ha, Hr. auto.
Qed.

Lemma bad_verdict_warns_announces_records_witness :
  let w' := cycle watching 1 (Fulfilled http_200)
              (Fulfilled (reply (verdict_text "bad" "Sit up straight")))
              (Normal (verdict "bad" "Sit up straight")) in
  status (state w') = warning
  /\ lastMessage (state w') = str "Sit up straight"
  /\ announce_calls (trace (host w'))
     = str "Sit up straight" :: announce_calls (trace (host watching))
  /\ record_calls (trace (host w'))
     = (str "Sit up straight", "violation") :: record_calls (trace (host watching)).
Proof.
  apply (bad_verdict_warns_announces_records watching 1 watching_closure
           {| srcObject := Some camera |} watching_canvas http_200
           (reply (verdict_text "bad" "Sit up straight"))
           (str (verdict_text "bad" "Sit up straight"))
           (verdict "bad" "Sit up straight") (str "Sit up straight"));
    reflexivity.
Defined.

(** C2: a cycle whose analysis returns a verdict with status ["good"] ends
    with status [good] and the fixed message ["Mom is happy."], and calls
    neither [speakText] nor [logEvent]; nothing reaches the speech device
    or the sink. *)
Theorem good_verdict_affirms_silently
    w timer cl video canvas resp data t result :
  timers (host w) !! timer = Some cl ->
  videoRef (refs w) = Some video ->
  canvasRef (refs w) = Some canvas ->
  candidate_text data = Normal t ->
  get (of_json result) "status" = Normal (str "good") ->
  let w' := cycle w timer (Fulfilled resp) (Fulfilled data) (Normal result) in
  status (state w') = good
  /\ lastMessage (state w') = str "Mom is happy."
  /\ announce_calls (trace (host w')) = announce_calls (trace (host w))
  /\ record_calls (trace (host w')) = record_calls (trace (host w))
  /\ deliveries (trace (host w')) = deliveries (trace (host w))
  /\ writes (trace (host w')) = writes (trace (host w)).
Proof.
  intros Hl Hv Hc Ht Hs w'. subst w'.
  rewrite (cycle_fulfilled _ _ _ _ _ Hl Hv Hc).
  rewrite (decoded_lenient _ _ _ _ _ _ Ht Hs eq_refl). cbn. auto 10.
Qed.

Lemma good_verdict_affirms_silently_witness :
  let w' := cycle watching 1 (Fulfilled http_200)
              (Fulfilled (reply (verdict_text "good" "Well done")))
              (Normal (verdict "good" "Well done")) in
  status (state w') = good
  /\ lastMessage (state w') = str "Mom is happy."
  /\ announce_calls (trace (host w')) = announce_calls (trace (host watching))
  /\ record_calls (trace (host w')) = record_calls (trace (host watching))
  /\ deliveries (trace (host w')) = deliveries (trace (host watching))
  /\ writes (trace (host w')) = writes (trace (host watching)).
Proof.
  apply (good_verdict_affirms_silently watching 1 watching_closure
           {| srcObject := Some camera |} watching_canvas http_200
           (reply (verdict_text "good" "Well done"))
           (str (verdict_text "good" "Well done"))
           (verdict "good" "Well done"));
    reflexivity.
Defined.

(** C10, as the code has it: when the candidate text parses to any JSON
    value other than [null] and the [status] read from it is not the string
    ["bad"] (absent, or any other value), the cycle ends with status [good]
    and ["Mom is happy."], and calls neither [speakText] nor [logEvent]. *)
Theorem lenient_verdict_is_good
    w timer cl video canvas resp data t result :
  timers (host w) !! timer = Some cl ->
  videoRef (refs w) = Some video ->
  canvasRef (refs w) = Some canvas ->
  candidate_text data = Normal t ->
  result <> JNull ->
  get (of_json result) "status" <> Normal (str "bad") ->
  let w' := cycle w timer (Fulfilled resp) (Fulfilled data) (Normal result) in
  status (state w') = good
  /\ lastMessage (state w') = str "Mom is happy."
  /\ announce_calls (trace (host w')) = announce_calls (trace (host w))
  /\ record_calls (trace (host w')) = record_calls (trace (host w)).
Proof.
  intros Hl Hv Hc Ht Hnn Hs w'. subst w'.
  destruct (get_not_null result "status" Hnn) as [st Hst].
  rewrite (cycle_fulfilled _ _ _ _ _ Hl Hv Hc).
  rewrite (decoded_lenient _ _ _ _ _ _ Ht Hst); [cbn; auto|].
  apply strict_eq_str_ne. intros ->. contradiction.
Qed.

Lemma lenient_verdict_is_good_witness :
  let w' := cycle watching 1 (Fulfilled http_200)
              (Fulfilled (reply (verdict_text "unknown" "")))
              (Normal (verdict "unknown" "")) in
  status (state w') = good
  /\ lastMessage (state w') = str "Mom is happy."
  /\ announce_calls (trace (host w')) = announce_calls (trace (host watching))
  /\ record_calls (trace (host w')) = record_calls (trace (host watching)).
Proof.
  apply (lenient_verdict_is_good watching 1 watching_closure
           {| srcObject := Some camera |} watching_canvas http_200
           (reply (verdict_text "unknown" ""))
           (str (verdict_text "unknown" ""))
           (verdict "unknown" ""));
    (reflexivity || discriminate).
Defined.

(** C10 as stated fails on the JSON text [null]: it parses, it has no
    [status] of value ["bad"], and the cycle ends with status [error]
    because reading [status] of [null] throws inside the [try]. *)
Lemma null_verdict_is_error :
  let w' := cycle watching 1 (Fulfilled http_200) (Fulfilled (reply "null"))
              (Normal JNull) in
  get (of_json JNull) "status" <> Normal (str "bad")
  /\ status (state w') = error
  /\ lastMessage (state w') = str "Mom is watching...".
Proof. cbv zeta. split; [discriminate | split; reflexivity]. Qed.

(** ** Starting and stopping *)

(** C3: in either mode, a click on the start button with an empty API key
    opens the settings panel and raises the alert asking for a key, and
    nothing else: monitoring stays off, no interval timer is created, no
    cycle is in flight, and status and last message are what they were. *)
Theorem start_without_key_refused w m :
  mode (state w) = m ->
  isActive (state w) = false ->
  apiKey (state w) = "" ->
  let w' := step w ClickToggle in
  trace (host w') = Alert "Please enter a Gemini API Key in settings." :: trace (host w)
  /\ settingsOpen (state w') = true
  /\ isActive (state w') = false
  /\ mode (state w') = m
  /\ timers (host w') = timers (host w)
  /\ next_timer (host w') = next_timer (host w)
  /\ intervalRef (refs w') = intervalRef (refs w)
  /\ inflight (host w') = inflight (host w)
  /\ requests (trace (host w')) = requests (trace (host w))
  /\ status (state w') = status (state w)
  /\ lastMessage (state w') = lastMessage (state w).
Proof.
  intros Hm Ha Hk. unfold step, handle, toggleMonitoring. unfold_m. cbn.
  rewrite Ha, Hk. cbn. auto 15.
Qed.

Lemma start_without_key_refused_witness :
  let w := upd_state (set_mode eating) (mount "" (Some samantha) None) in
  let w' := step w ClickToggle in
  trace (host w') = Alert "Please enter a Gemini API Key in settings." :: trace (host w)
  /\ settingsOpen (state w') = true
  /\ isActive (state w') = false
  /\ mode (state w') = eating
  /\ timers (host w') = timers (host w)
  /\ next_timer (host w') = next_timer (host w)
  /\ intervalRef (refs w') = intervalRef (refs w)
  /\ inflight (host w') = inflight (host w)
  /\ requests (trace (host w')) = requests (trace (host w))
  /\ status (state w') = status (state w)
  /\ lastMessage (state w') = lastMessage (state w).
Proof.
  apply (start_without_key_refused
           (upd_state (set_mode eating) (mount "" (Some samantha) None)) eating);
    reflexivity.
Defined.

(** ** Failures *)

Lemma speakText_completes t w : (speakText t w).1 = Normal tt.
Proof.
  unfold_m. cbn. destruct (speechSynthesis (host w)) as [s|]; cbn;
    [destruct (speaking s); cbn|]; reflexivity.
Qed.

Lemma logEvent_completes cl m ty w : (logEvent cl m ty w).1 = Normal tt.
Proof. unfold_m. cbn. destruct (db (host w)); reflexivity. Qed.

Lemma analyzeFrame_completes cl w : (analyzeFrame cl w).1 = Normal tt.
Proof.
  unfold analyzeFrame. unfold_m. cbn.
  destruct (videoRef (refs w)), (canvasRef (refs w)); reflexivity.
Qed.

Lemma analyzeFrame_fetched_completes cl id r w :
  (analyzeFrame_fetched cl id r w).1 = Normal tt.
Proof. unfold analyzeFrame_fetched. unfold_m. destruct r; reflexivity. Qed.

Lemma analyzeFrame_decoded_completes cl body parsed w :
  (analyzeFrame_decoded cl body parsed w).1 = Normal tt.
Proof.
  unfold analyzeFrame_decoded. unfold_m. cbn.
  destruct body as [data|]; cbn; [|reflexivity].
  destruct (candidate_text data); cbn; [|reflexivity].
  destruct parsed as [result|]; cbn; [|reflexivity].
  destruct (get (of_json result) "status") as [st|]; cbn; [|reflexivity].
  destruct (strict_eq_str st "bad"); cbn; [|reflexivity].
  destruct (get (of_json result) "message"); cbn; [|reflexivity].
  destruct (speechSynthesis (host w)) as [s|]; cbn;
    [destruct (speaking s); cbn|];
    destruct (db (host w)); reflexivity.
Qed.

(** No handler lets an exception out. *)
Lemma handle_completes ev w : (handle ev w).1 = Normal tt.
Proof.
  destruct ev; unfold handle.
  - unfold startCamera. unfold_m. destruct r; cbn; [|reflexivity].
    destruct (videoRef (refs w)); reflexivity.
  - unfold toggleMonitoring. unfold_m. cbn.
    destruct (isActive (state w)); cbn.
    + destruct (intervalRef (refs w)); reflexivity.
    + destruct (falsy (apiKey (state w))); reflexivity.
  - unfold_m. cbn. destruct (isActive (state w)); reflexivity.
  - reflexivity.
  - unfold_m. cbn. destruct (settingsOpen (state w)); reflexivity.
  - unfold_m. cbn. destruct (settingsOpen (state w)); reflexivity.
  - unfold mbind, M_bind, gets. destruct (timers (host w) !! timer);
      [apply analyzeFrame_completes | reflexivity].
  - unfold mbind, M_bind, gets.
    destruct (inflight (host w) !! cycle0) as [[cl []]|]; try reflexivity.
    unfold resume, modify. apply analyzeFrame_fetched_completes.
  - unfold mbind, M_bind, gets.
    destruct (inflight (host w) !! cycle0) as [[cl []]|]; try reflexivity.
    unfold resume, modify. apply analyzeFrame_decoded_completes.
  - unfold_m. cbn. destruct (pending_writes (host w)); cbn; [reflexivity|].
    destruct r as [[]|]; reflexivity.
  - reflexivity.
Qed.

Lemma cycle_throws w timer cl video canvas r body parsed e :
  timers (host w) !! timer = Some cl ->
  videoRef (refs w) = Some video ->
  canvasRef (refs w) = Some canvas ->
  client_throws r body parsed e ->
  cycle w timer r body parsed
  = upd_state (set_status error)
      (upd_host (emit (ConsoleError "AI Error:" e)) (sent cl video w)).
Proof.
  intros Hl Hv Hc Hthrow. destruct r as [resp|e'].
  - rewrite (cycle_fulfilled _ _ _ _ _ Hl Hv Hc).
    apply (decoded_throws _ _ resp), Hthrow.
  - inversion Hthrow; subst. apply (cycle_rejected _ _ _ _ _ Hl Hv Hc).
Qed.

(** The five throwing points are all there is: a cycle that ends in [error]
    went through one of them. *)
Lemma cycle_error_client_throws w timer cl video canvas r body parsed :
  timers (host w) !! timer = Some cl ->
  videoRef (refs w) = Some video ->
  canvasRef (refs w) = Some canvas ->
  status (state (cycle w timer r body parsed)) = error ->
  exists e, client_throws r body parsed e.
Proof.
  intros Hl Hv Hc. destruct r as [resp|e]; [|eexists; constructor].
  destruct body as [data|e]; [|eexists; constructor].
  destruct (candidate_text data) as [t|e] eqn:Ht;
    [|eexists; apply no_candidate_text, Ht].
  destruct parsed as [result|e]; [|eexists; apply (text_not_json _ _ t), Ht].
  assert (result = JNull \/ result <> JNull) as [->|Hnn]
    by (destruct result; auto; right; discriminate);
    [eexists; apply (verdict_null _ _ t), Ht|].
  destruct (get_not_null result "status" Hnn) as [st Hst].
  destruct (get_not_null result "message" Hnn) as [m Hm].
  rewrite (cycle_fulfilled _ _ _ _ _ Hl Hv Hc).
  destruct (strict_eq_str st "bad") eqn:Hbad.
  - assert (st = str "bad") as ->.
    { destruct st as [|[]]; try discriminate. cbn in Hbad.
      apply String.eqb_eq in Hbad. subst. reflexivity. }
    destruct (decoded_bad cl (sent cl video w) _ _ _ _ Ht Hst Hm) as (-> & _).
    discriminate.
  - rewrite (decoded_lenient _ _ _ _ _ _ Ht Hst Hbad). discriminate.
Qed.

(** C5: whenever the client side of a cycle throws (a rejected [fetch], a
    body that cannot be decoded, no candidate text, a candidate text that
    is not JSON, a [null] verdict), the [catch] of [analyzeFrame] takes it:
    the cycle ends with status [error], the last message is the one it
    was before the cycle, the exception is logged, and none of the three
    handler runs of the cycle throws.  Frame capture stands before the
    [try] and has no throwing path. *)
Theorem client_failure_sets_error w timer cl video canvas r body parsed e :
  timers (host w) !! timer = Some cl ->
  videoRef (refs w) = Some video ->
  canvasRef (refs w) = Some canvas ->
  client_throws r body parsed e ->
  let id := next_cycle (host w) in
  let w1 := step w (Tick timer) in
  let w2 := step w1 (FetchSettles id r) in
  let w3 := step w2 (JsonSettles id body parsed) in
  status (state w3) = error
  /\ lastMessage (state w3) = lastMessage (state w)
  /\ trace (host w3)
     = ConsoleError "AI Error:" e :: Fetch id (request_of cl video) :: trace (host w)
  /\ (handle (Tick timer) w).1 = Normal tt
  /\ (handle (FetchSettles id r) w1).1 = Normal tt
  /\ (handle (JsonSettles id body parsed) w2).1 = Normal tt.
Proof.
  intros Hl Hv Hc Hthrow id w1 w2 w3.
  change w3 with (cycle w timer r body parsed).
  rewrite (cycle_throws _ _ _ _ _ _ _ _ _ Hl Hv Hc Hthrow).
  repeat split; apply handle_completes.
Qed.

Lemma client_failure_sets_error_witness :
  let w1 := step watching (Tick 1) in
  let w2 := step w1 (FetchSettles 0 (Fulfilled http_200)) in
  let w3 := step w2 (JsonSettles 0 (Fulfilled (reply "Sit up straight!"))
                       (Throw SyntaxError)) in
  status (state w3) = error
  /\ lastMessage (state w3) = lastMessage (state watching)
  /\ trace (host w3)
     = ConsoleError "AI Error:" SyntaxError
       :: Fetch 0 (request_of watching_closure {| srcObject := Some camera |})
       :: trace (host watching)
  /\ (handle (Tick 1) watching).1 = Normal tt
  /\ (handle (FetchSettles 0 (Fulfilled http_200)) w1).1 = Normal tt
  /\ (handle (JsonSettles 0 (Fulfilled (reply "Sit up straight!"))
                (Throw SyntaxError)) w2).1 = Normal tt.
Proof.
  apply (client_failure_sets_error watching 1 watching_closure
           {| srcObject := Some camera |} watching_canvas
           (Fulfilled http_200) (Fulfilled (reply "Sit up straight!"))
           (Throw SyntaxError) SyntaxError);
    [reflexivity | reflexivity | reflexivity |].
  apply (text_not_json http_200 _ (str "Sit up straight!")). reflexivity.
Defined.

(** C7, as the code has it: every failure of the client side ends in the
    one [catch] of [analyzeFrame].  Two failing cycles from the same world
    leave the same state and refs, with status [error], and differ only in
    the exception they log; no kind of failure is told from another.  The
    response object is not inspected: whatever its HTTP status, the cycle
    goes on to decode the body. *)
Theorem failures_share_one_handler
    w timer cl video canvas r body parsed e r' body' parsed' e' :
  timers (host w) !! timer = Some cl ->
  videoRef (refs w) = Some video ->
  canvasRef (refs w) = Some canvas ->
  client_throws r body parsed e ->
  client_throws r' body' parsed' e' ->
  let w1 := cycle w timer r body parsed in
  let w2 := cycle w timer r' body' parsed' in
  status (state w1) = error
  /\ state w1 = state w2
  /\ refs w1 = refs w2
  /\ trace (host w1)
     = ConsoleError "AI Error:" e
       :: Fetch (next_cycle (host w)) (request_of cl video) :: trace (host w)
  /\ trace (host w2)
     = ConsoleError "AI Error:" e'
       :: Fetch (next_cycle (host w)) (request_of cl video) :: trace (host w)
  /\ forall resp1 resp2 b p,
       cycle w timer (Fulfilled resp1) b p = cycle w timer (Fulfilled resp2) b p.
Proof.
  intros Hl Hv Hc H1 H2 w1 w2. subst w1 w2.
  rewrite (cycle_throws _ _ _ _ _ _ _ _ _ Hl Hv Hc H1).
  rewrite (cycle_throws _ _ _ _ _ _ _ _ _ Hl Hv Hc H2).
  repeat split. intros resp1 resp2 b p.
  rewrite !(cycle_fulfilled _ _ _ _ _ Hl Hv Hc). reflexivity.
Qed.

Lemma failures_share_one_handler_witness :
  let w1 := cycle watching 1 (Rejected TypeError)
              (Fulfilled (reply "")) (Throw SyntaxError) in
  let w2 := cycle watching 1 (Fulfilled http_200)
              (Fulfilled (reply "Sit up straight!")) (Throw SyntaxError) in
  status (state w1) = error
  /\ state w1 = state w2
  /\ refs w1 = refs w2
  /\ trace (host w1)
     = ConsoleError "AI Error:" TypeError
       :: Fetch (next_cycle (host watching))
            (request_of watching_closure {| srcObject := Some camera |})
       :: trace (host watching)
  /\ trace (host w2)
     = ConsoleError "AI Error:" SyntaxError
       :: Fetch (next_cycle (host watching))
            (request_of watching_closure {| srcObject := Some camera |})
       :: trace (host watching)
  /\ forall resp1 resp2 b p,
       cycle watching 1 (Fulfilled resp1) b p
       = cycle watching 1 (Fulfilled resp2) b p.
Proof.
  apply (failures_share_one_handler watching 1 watching_closure
           {| srcObject := Some camera |} watching_canvas
           (Rejected TypeError) (Fulfilled (reply "")) (Throw SyntaxError)
           TypeError
           (Fulfilled http_200) (Fulfilled (reply "Sit up straight!"))
           (Throw SyntaxError) SyntaxError);
    [reflexivity | reflexivity | reflexivity | |].
  - apply fetch_rejects.
  - apply (text_not_json http_200 _ (str "Sit up straight!")). reflexivity.
Defined.

(** C7 as stated fails: a response with HTTP status 500 whose body carries
    a verdict is no [TransportError] to the code, a payload outside the
    contract is no [MalformedResponse], and a rejected [fetch] and an
    unparsable text, which the specification classifies differently, leave
    the same state. *)
Lemma failures_not_classified :
  let served_500 :=
    cycle watching 1 (Fulfilled http_500)
      (Fulfilled (reply (verdict_text "good" "Well done")))
      (Normal (verdict "good" "Well done")) in
  let off_contract :=
    cycle watching 1 (Fulfilled http_200)
      (Fulfilled (reply (verdict_text "unknown" "")))
      (Normal (verdict "unknown" "")) in
  let unreachable :=
    cycle watching 1 (Rejected TypeError) (Rejected TypeError)
      (Throw SyntaxError) in
  let garbled :=
    cycle watching 1 (Fulfilled http_200)
      (Fulfilled (reply "Sit up straight!")) (Throw SyntaxError) in
  (spec_failure (Fulfilled http_500)
     (Fulfilled (reply (verdict_text "good" "Well done")))
     (Normal (verdict "good" "Well done")) = Some TransportError
   /\ status (state served_500) = good)
  /\ (spec_failure (Fulfilled http_200)
        (Fulfilled (reply (verdict_text "unknown" "")))
        (Normal (verdict "unknown" "")) = Some MalformedResponse
      /\ status (state off_contract) = good)
  /\ (spec_failure (Rejected TypeError) (Rejected TypeError)
        (Throw SyntaxError) = Some TransportError
      /\ spec_failure (Fulfilled http_200)
           (Fulfilled (reply "Sit up straight!")) (Throw SyntaxError)
         = Some MalformedResponse
      /\ state unreachable = state garbled
      /\ status (state garbled) = error).
Proof. cbv zeta. repeat split; reflexivity. Qed.

(** ** The event sink *)

(** C9: [logEvent] and the later settling of its write, rejected or not,
    never throw and leave the React state (status and last message
    included), the refs, the live timers and the cycles in flight as they
    were; a rejected write only logs to the console.  Without a sink
    ([db] is [null]) the call hands nothing to the sink and leaves no
    pending write. *)
Theorem record_failure_swallowed (w later : World) cl message type r :
  let w1 := exec (logEvent cl message type) w in
  let w2 := step later (AddDocSettles r) in
  ((logEvent cl message type w).1 = Normal tt
   /\ state w1 = state w
   /\ refs w1 = refs w
   /\ timers (host w1) = timers (host w)
   /\ inflight (host w1) = inflight (host w))
  /\ ((handle (AddDocSettles r) later).1 = Normal tt
      /\ state w2 = state later
      /\ refs w2 = refs later
      /\ timers (host w2) = timers (host later)
      /\ inflight (host w2) = inflight (host later)
      /\ speechSynthesis (host w2) = speechSynthesis (host later))
  /\ match db (host w) with
     | None => w1 = upd_host (emit (CallLogEvent message type)) w
     | Some fs =>
         writes (trace (host w1))
         = {| doc_mode := c_mode cl; doc_message := message;
              doc_type := type; doc_uid := uid_or_anon fs |}
           :: writes (trace (host w))
     end.
Proof.
  cbv zeta. split; [|split].
  - split; [apply logEvent_completes|].
    unfold_m. cbn. destruct (db (host w)); cbn; auto.
  - split; [apply handle_completes|].
    unfold step, handle. unfold_m. cbn.
    destruct (pending_writes (host later)); cbn; [auto 10|].
    destruct r as [[]|]; cbn; auto 10.
  - unfold_m. cbn. destruct (db (host w)); reflexivity.
Qed.

(** A violation whose write is rejected: the cycle still ends in
    [warning], and the rejection changes neither status nor message nor
    the live timer. *)
Example rejected_write_after_violation :
  let w1 := cycle watching 1 (Fulfilled http_200)
              (Fulfilled (reply (verdict_text "bad" "Sit up straight")))
              (Normal (verdict "bad" "Sit up straight")) in
  let w2 := step w1 (AddDocSettles (Rejected (FirebaseError "permission-denied"))) in
  pending_writes (host w1) = 1
  /\ state w2 = state w1
  /\ status (state w2) = warning
  /\ timers (host w2) !! 1 = Some watching_closure
  /\ trace (host w2) = ConsoleError "Log error" (FirebaseError "permission-denied") :: trace (host w1).
Proof. vm_compute. repeat split; reflexivity. Qed.

(** ** A video element without a stream *)

(** C6, as the code has it: when the video or the canvas element is
    missing the cycle returns at once, leaving the world as it was; when
    both exist but no stream is attached, capture does not fail: the cycle
    yields a canvas without pixels and the empty string as image, the
    cycle sets [analyzing] and sends its request with that image, nothing
    is thrown, and the answer is treated as in any cycle, so a good verdict
    ends in [good]. *)
Theorem no_stream_capture_does_not_fail w timer cl :
  timers (host w) !! timer = Some cl ->
  (videoRef (refs w) = None \/ canvasRef (refs w) = None ->
   step w (Tick timer) = w /\ (handle (Tick timer) w).1 = Normal tt)
  /\ capture {| srcObject := None |}
     = ({| width := 0; height := 0; bitmap := "" |}, Some "")
  /\ forall canvas,
       videoRef (refs w) = Some {| srcObject := None |} ->
       canvasRef (refs w) = Some canvas ->
       let w1 := step w (Tick timer) in
       (handle (Tick timer) w).1 = Normal tt
       /\ status (state w1) = analyzing
       /\ trace (host w1)
          = Fetch (next_cycle (host w))
              {| req_key := c_apiKey cl;
                 req_prompt := match c_mode cl with
                               | eating => EatingPrompt
                               | homework => HomeworkPrompt
                               end;
                 req_image := Some "" |}
            :: trace (host w)
       /\ forall resp data t result,
            candidate_text data = Normal t ->
            get (of_json result) "status" = Normal (str "good") ->
            status (state (cycle w timer (Fulfilled resp) (Fulfilled data)
                             (Normal result))) = good.
Proof.
  intros Hl. split; [|split].
  - intros Hmissing. split; [|apply handle_completes].
    unfold step, handle, analyzeFrame. unfold_m. cbn. rewrite Hl.
    destruct Hmissing as [-> | ->]; [|destruct (videoRef (refs w))];
      reflexivity.
  - reflexivity.
  - intros canvas Hv Hc w1. subst w1.
    split; [apply handle_completes|].
    rewrite (step_tick _ _ _ _ _ Hl Hv Hc).
    split; [reflexivity | split; [reflexivity |]].
    intros resp data t result Ht Hs.
    rewrite (cycle_fulfilled _ _ _ _ _ Hl Hv Hc).
    rewrite (decoded_lenient _ _ _ _ _ _ Ht Hs eq_refl). reflexivity.
Qed.

Lemma no_stream_capture_does_not_fail_witness :
  let w1 := step watching_blind (Tick 1) in
  (handle (Tick 1) watching_blind).1 = Normal tt
  /\ status (state w1) = analyzing
  /\ trace (host w1)
     = Fetch 0 {| req_key := "key"; req_prompt := HomeworkPrompt;
                  req_image := Some "" |}
       :: trace (host watching_blind)
  /\ forall resp data t result,
       candidate_text data = Normal t ->
       get (of_json result) "status" = Normal (str "good") ->
       status (state (cycle watching_blind 1 (Fulfilled resp) (Fulfilled data)
                        (Normal result))) = good.
Proof.
  apply (proj2 (proj2 (no_stream_capture_does_not_fail watching_blind 1
                         watching_closure eq_refl)) watching_canvas);
    reflexivity.
Defined.

(** C6 as stated fails: with the camera refused the video element has no
    stream, yet the cycle sends its request (with an empty image), and when
    the API answers with a good verdict it ends in [good], not [error];
    with the video element itself missing the cycle leaves the status
    untouched. *)
Lemma no_stream_cycle_can_succeed :
  let w' := cycle watching_blind 1 (Fulfilled http_200)
              (Fulfilled (reply (verdict_text "good" "Well done")))
              (Normal (verdict "good" "Well done")) in
  let unmounted := upd_refs (set_videoRef None) watching_blind in
  videoRef (refs watching_blind) = Some {| srcObject := None |}
  /\ status (state w') = good
  /\ requests (trace (host w'))
     = [{| req_key := "key"; req_prompt := HomeworkPrompt;
           req_image := Some "" |}]
  /\ status (state (cycle unmounted 1 (Fulfilled http_200)
                      (Fulfilled (reply (verdict_text "good" "Well done")))
                      (Normal (verdict "good" "Well done")))) = idle.
Proof. vm_compute. repeat split; reflexivity. Qed.

(** ** Stopping with a cycle in flight *)

Lemma step_stop w :
  isActive (state w) = true ->
  step w ClickToggle
  = upd_state
      (fun s => set_lastMessage (str "Monitoring paused.")
                  (set_status idle (set_isActive false s)))
      (upd_host
         (fun h => emit (ClearInterval (intervalRef (refs w)))
                     (match intervalRef (refs w) with
                      | Some i => set_timers (delete i (timers h)) (next_timer h) h
                      | None => h
                      end)) w).
Proof.
  intros Ha. unfold step, handle, toggleMonitoring. unfold_m. cbn.
  rewrite Ha. cbn. destruct (intervalRef (refs w)); reflexivity.
Qed.

(** What the last piece of a cycle makes of the status does not depend on
    the world it runs in; it never gives [idle]. *)
Lemma decoded_state_indep cl body parsed w1 w2 :
  let s1 := state (exec (analyzeFrame_decoded cl body parsed) w1) in
  let s2 := state (exec (analyzeFrame_decoded cl body parsed) w2) in
  status s1 = status s2
  /\ (status s1 = good \/ status s1 = warning \/ status s1 = error)
  /\ (status s1 = error /\ lastMessage s1 = lastMessage (state w1)
      \/ lastMessage s1 = lastMessage s2).
Proof.
  unfold analyzeFrame_decoded. unfold_m. cbn.
  destruct body as [data|]; cbn; [|auto 10].
  destruct (candidate_text data); cbn; [|auto 10].
  destruct parsed as [result|]; cbn; [|auto 10].
  destruct (get (of_json result) "status") as [st|]; cbn; [|auto 10].
  destruct (strict_eq_str st "bad"); cbn; [|auto 10].
  destruct (get (of_json result) "message"); cbn; [|auto 10].
  destruct (speechSynthesis (host w1)) as [s1|]; cbn;
    [destruct (speaking s1); cbn|];
    destruct (db (host w1)); cbn;
    (destruct (speechSynthesis (host w2)) as [s2|]; cbn;
     [destruct (speaking s2); cbn|]);
    destruct (db (host w2)); cbn; auto 10.
Qed.

(** C4, as the code has it: stopping sets [idle] and ["Monitoring
    paused."], switches monitoring off and clears the interval, so the
    cleared timer starts no further cycle.  A cycle already in flight is
    not discarded: when its network call settles after the stop it sets
    the status to [good], [warning] or [error], the same as it would
    have without the stop, and on a verdict it replaces the last message
    as well. *)
Theorem inflight_cycle_survives_stop w id cl r body parsed :
  isActive (state w) = true ->
  inflight (host w) !! id = Some {| captured := cl; stage := AwaitFetch |} ->
  let stopped := step w ClickToggle in
  let late := run stopped [FetchSettles id r; JsonSettles id body parsed] in
  let undisturbed := run w [FetchSettles id r; JsonSettles id body parsed] in
  (status (state stopped) = idle
   /\ lastMessage (state stopped) = str "Monitoring paused."
   /\ isActive (state stopped) = false
   /\ forall t, intervalRef (refs w) = Some t -> step stopped (Tick t) = stopped)
  /\ status (state late) = status (state undisturbed)
  /\ (status (state late) = good \/ status (state late) = warning
      \/ status (state late) = error)
  /\ (status (state late) = error
      /\ lastMessage (state late) = str "Monitoring paused."
      \/ lastMessage (state late) = lastMessage (state undisturbed)).
Proof.
  intros Ha Hp stopped late undisturbed.
  assert (Hp' : inflight (host stopped) !! id
                = Some {| captured := cl; stage := AwaitFetch |}).
  { subst stopped. rewrite (step_stop _ Ha). cbn.
    destruct (intervalRef (refs w)); exact Hp. }
  assert (Hs : state stopped
               = set_lastMessage (str "Monitoring paused.")
                   (set_status idle (set_isActive false (state w)))).
  { subst stopped. rewrite (step_stop _ Ha). reflexivity. }
  split.
  - rewrite Hs. repeat split. intros t Ht. apply step_tick_dead.
    subst stopped. rewrite (step_stop _ Ha), Ht. cbn. apply lookup_delete_eq.
  - subst late undisturbed. unfold run. cbn [fold_left].
    clearbody stopped. destruct r as [resp|e].
    + rewrite (step_fetch_fulfilled _ _ cl _ Hp).
      rewrite (step_fetch_fulfilled _ _ cl _ Hp').
      rewrite !(step_json _ _ cl resp) by (cbn; apply lookup_insert_eq).
      match goal with
      | |- status (state (exec _ ?a)) = status (state (exec _ ?b)) /\ _ =>
          pose proof (decoded_state_indep cl body parsed a b) as H
      end.
      cbv zeta in H. cbn [state upd_host] in H. rewrite Hs in H.
      destruct H as (H1 & H2 & H3).
      split; [exact H1 | split; [exact H2 | exact H3]].
    + rewrite (step_fetch_rejected _ _ cl _ Hp).
      rewrite (step_fetch_rejected _ _ cl _ Hp').
      rewrite !step_json_gone by (cbn; apply lookup_delete_eq).
      cbn. rewrite Hs. cbn. auto 10.
Qed.

Lemma inflight_cycle_survives_stop_witness :
  let w := step watching (Tick 1) in
  let r := Fulfilled http_200 in
  let body := Fulfilled (reply (verdict_text "good" "Well done")) in
  let parsed := Normal (verdict "good" "Well done") in
  let stopped := step w ClickToggle in
  let late := run stopped [FetchSettles 0 r; JsonSettles 0 body parsed] in
  let undisturbed := run w [FetchSettles 0 r; JsonSettles 0 body parsed] in
  (status (state stopped) = idle
   /\ lastMessage (state stopped) = str "Monitoring paused."
   /\ isActive (state stopped) = false
   /\ forall t, intervalRef (refs w) = Some t -> step stopped (Tick t) = stopped)
  /\ status (state late) = status (state undisturbed)
  /\ (status (state late) = good \/ status (state late) = warning
      \/ status (state late) = error)
  /\ (status (state late) = error
      /\ lastMessage (state late) = str "Monitoring paused."
      \/ lastMessage (state late) = lastMessage (state undisturbed)).
Proof.
  apply (inflight_cycle_survives_stop (step watching (Tick 1)) 0
           watching_closure (Fulfilled http_200)
           (Fulfilled (reply (verdict_text "good" "Well done")))
           (Normal (verdict "good" "Well done")));
    reflexivity.
Defined.

(** C4 as stated fails: monitoring is stopped while the request of cycle 0
    is out; the answer arrives afterwards with a bad verdict, and the page
    that showed [idle] and ["Monitoring paused."] goes to [warning] with
    the verdict's message, speaks it and records it, though monitoring is
    off and no timer is live. *)
Lemma stop_keeps_inflight_result :
  let w := step watching (Tick 1) in
  let stopped := step w ClickToggle in
  let late :=
    run stopped
      [FetchSettles 0 (Fulfilled http_200);
       JsonSettles 0 (Fulfilled (reply (verdict_text "bad" "Sit up straight")))
         (Normal (verdict "bad" "Sit up straight"))] in
  (status (state stopped) = idle
   /\ lastMessage (state stopped) = str "Monitoring paused.")
  /\ (isActive (state late) = false
      /\ timers (host late) !! 1 = None
      /\ status (state late) = warning
      /\ lastMessage (state late) = str "Sit up straight"
      /\ announce_calls (trace (host late)) = [str "Sit up straight"]
      /\ record_calls (trace (host late)) = [(str "Sit up straight", "violation")]).
Proof. vm_compute. repeat split; reflexivity. Qed.

(** ** The announcement channel *)

Lemma speaking_false s : speaking s = false -> queue s = [].
Proof. unfold speaking. destruct (queue s); [reflexivity | discriminate]. Qed.

Lemma speaking_speak u s : speaking (speak u s) = true.
Proof. unfold speaking, speak. cbn. destruct (queue s); reflexivity. Qed.

Lemma speakText_utterances t w :
  length (utterances w) <= 1 -> length (utterances (exec (speakText t) w)) <= 1.
Proof.
  unfold utterances. unfold_m. cbn.
  destruct (speechSynthesis (host w)) as [s|] eqn:Hs; cbn.
  - destruct (speaking s) eqn:Hsp; cbn.
    + rewrite Hs. auto.
    + intros _. rewrite (speaking_false _ Hsp). cbn. lia.
  - rewrite Hs. auto.
Qed.

Lemma logEvent_utterances cl m ty w :
  utterances (exec (logEvent cl m ty) w) = utterances w.
Proof. unfold utterances. unfold_m. cbn. destruct (db (host w)); reflexivity. Qed.

Lemma decoded_utterances cl body parsed w :
  length (utterances w) <= 1 ->
  length (utterances (exec (analyzeFrame_decoded cl body parsed) w)) <= 1.
Proof.
  intros Hw. unfold analyzeFrame_decoded.
  unfold exec, try_catch, analyzeFrame_catch, await, lift,
    mbind, M_bind, mret, M_ret. cbn.
  destruct body as [data|]; cbn; [|exact Hw].
  destruct (candidate_text data); cbn; [|exact Hw].
  destruct parsed as [result|]; cbn; [|exact Hw].
  destruct (get (of_json result) "status") as [st|]; cbn; [|exact Hw].
  destruct (strict_eq_str st "bad"); cbn; [|exact Hw].
  destruct (get (of_json result) "message") as [m|]; cbn; [|exact Hw].
  pose proof (speakText_completes m
                (upd_state (set_lastMessage m) (upd_state (set_status warning) w)))
    as Hc.
  pose proof (speakText_utterances m
                (upd_state (set_lastMessage m) (upd_state (set_status warning) w)) Hw)
    as Hu.
  unfold exec in Hu.
  destruct (speakText m _) as [c w1]. cbn in Hc, Hu. subst c.
  pose proof (logEvent_completes cl m "violation" w1) as Hc'.
  pose proof (logEvent_utterances cl m "violation" w1) as Hu'.
  unfold exec in Hu'.
  destruct (logEvent cl m "violation" w1) as [c w2]. cbn in Hc', Hu'. subst c.
  cbn. rewrite Hu'. exact Hu.
Qed.

(** The device never holds more than one utterance, whatever happens. *)
Lemma step_utterances w ev :
  length (utterances w) <= 1 -> length (utterances (step w ev)) <= 1.
Proof.
  intros Hw. destruct ev; unfold step, handle.
  - unfold startCamera. unfold_m. destruct r; cbn; [|exact Hw].
    destruct (videoRef (refs w)); exact Hw.
  - unfold toggleMonitoring. unfold_m. cbn.
    destruct (isActive (state w)); cbn.
    + destruct (intervalRef (refs w)); exact Hw.
    + destruct (falsy (apiKey (state w))); exact Hw.
  - unfold_m. cbn. destruct (isActive (state w)); exact Hw.
  - exact Hw.
  - unfold_m. cbn. destruct (settingsOpen (state w)); exact Hw.
  - unfold_m. cbn. destruct (settingsOpen (state w)); exact Hw.
  - unfold analyzeFrame. unfold_m. cbn.
    destruct (timers (host w) !! timer); cbn; [|exact Hw].
    destruct (videoRef (refs w)), (canvasRef (refs w)); exact Hw.
  - unfold analyzeFrame_fetched. unfold_m. cbn.
    destruct (inflight (host w) !! cycle0) as [[cl []]|]; try exact Hw.
    destruct r; exact Hw.
  - unfold exec, mbind, M_bind, gets.
    destruct (inflight (host w) !! cycle0) as [[cl []]|]; try exact Hw.
    unfold resume, modify. apply decoded_utterances. exact Hw.
  - unfold_m. cbn. destruct (pending_writes (host w)); cbn; [exact Hw|].
    destruct r as [[]|]; exact Hw.
  - revert Hw. unfold utterances, exec, modify. cbn.
    destruct (speechSynthesis (host w)) as [s|] eqn:Hs; cbn; [|rewrite Hs; auto].
    destruct (queue s); cbn; lia.
Qed.

Lemma run_utterances evs : forall w,
  length (utterances w) <= 1 -> length (utterances (run w evs)) <= 1.
Proof.
  induction evs as [|ev evs IH]; intros w Hw; [exact Hw|].
  apply IH, step_utterances, Hw.
Qed.

(** C8: while the device is speaking, [speakText] does nothing but return:
    the world is unchanged apart from the record of the call, so nothing is
    queued, the current utterance is not interrupted, and nothing reaches
    the device.  Of two calls made on an idle device the first is handed
    to the device and the second, which finds it speaking, is dropped.
    The device never holds more than one utterance, whatever events
    follow. *)
Theorem announce_dropped_while_speaking w s t t' :
  speechSynthesis (host w) = Some s ->
  let w1 := exec (speakText t) w in
  let w2 := exec (speakText t') w1 in
  (speaking s = true ->
   w1 = upd_host (emit (CallSpeakText t)) w
   /\ w2 = upd_host (emit (CallSpeakText t')) w1
   /\ utterances w2 = queue s
   /\ deliveries (trace (host w2)) = deliveries (trace (host w)))
  /\ (speaking s = false ->
      exists u,
        text u = t
        /\ utterances w1 = [u]
        /\ utterances w2 = [u]
        /\ w2 = upd_host (emit (CallSpeakText t')) w1
        /\ deliveries (trace (host w2)) = u :: deliveries (trace (host w)))
  /\ (length (queue s) <= 1 ->
      forall evs, length (utterances (run w evs)) <= 1).
Proof.
  intros Hs w1 w2. subst w1 w2. split; [|split].
  - intros Hsp. unfold utterances. unfold_m. cbn.
    rewrite Hs. cbn. rewrite Hsp. cbn. rewrite Hs. cbn. rewrite Hsp. cbn.
    rewrite Hs. auto.
  - intros Hsp. unfold utterances. unfold_m. cbn.
    rewrite Hs. cbn. rewrite Hsp. cbn.
    destruct (find is_female (getVoices s)); cbn;
      rewrite speaking_speak; cbn; rewrite (speaking_false _ Hsp);
      eexists; (split; [|repeat split]); reflexivity.
  - intros Hq evs. apply run_utterances. unfold utterances.
    rewrite Hs. exact Hq.
Qed.

Lemma announce_dropped_while_speaking_witness :
  let idle_page := watching in
  let busy_page := exec (speakText (str "Sit up straight")) watching in
  let w2 := exec (speakText (str "Eyes on your book"))
              (exec (speakText (str "Sit up straight")) idle_page) in
  let w3 := exec (speakText (str "Eyes on your book")) busy_page in
  (exists u,
     text u = str "Sit up straight"
     /\ utterances (exec (speakText (str "Sit up straight")) idle_page) = [u]
     /\ utterances w2 = [u]
     /\ w2 = upd_host (emit (CallSpeakText (str "Eyes on your book")))
               (exec (speakText (str "Sit up straight")) idle_page)
     /\ deliveries (trace (host w2)) = u :: deliveries (trace (host idle_page)))
  /\ w3 = upd_host (emit (CallSpeakText (str "Eyes on your book"))) busy_page.
Proof.
  cbv zeta. split.
  - apply (proj1 (proj2 (announce_dropped_while_speaking watching samantha
                           (str "Sit up straight") (str "Eyes on your book")
                           eq_refl))).
    reflexivity.
  - apply (proj1 (announce_dropped_while_speaking
                    (exec (speakText (str "Sit up straight")) watching)
                    {| getVoices := getVoices samantha;
                       queue := [{| text := str "Sit up straight"; rate := 1.0;
                                    pitch := 1.1;
                                    voice := Some {| name := "Samantha" |} |}] |}
                    (str "Eyes on your book") (str "Eyes on your book")
                    eq_refl)).
    reflexivity.
Defined.

(** The voice chosen is the first whose name has one of the three marks and
    not ["Male"]. *)
Example samantha_is_chosen :
  deliveries (trace (host (exec (speakText (str "Sit up straight")) watching)))
  = [{| text := str "Sit up straight"; rate := 1.0; pitch := 1.1;
        voice := Some {| name := "Samantha" |} |}].
Proof. vm_compute. reflexivity. Qed.

(** * Further properties of the component *)

(** Case analysis on everything a handler branches on. *)
Ltac handler_cases :=
  unfold step, handle, startCamera, toggleMonitoring, analyzeFrame,
    analyzeFrame_fetched, analyzeFrame_decoded;
  unfold_m; cbn;
  repeat (case_match; cbn in * ); simplify_eq; cbn in *.

(** ** What only the start button touches *)

Lemma step_control w ev :
  is_toggle_or_mode ev = false ->
  isActive (state (step w ev)) = isActive (state w)
  /\ mode (state (step w ev)) = mode (state w)
  /\ intervalRef (refs (step w ev)) = intervalRef (refs w)
  /\ timers (host (step w ev)) = timers (host w).
Proof. destruct ev; try discriminate; intros _; handler_cases; auto. Qed.

Lemma step_timer_ok w ev : timer_ok w -> timer_ok (step w ev).
Proof.
  intros Hw. destruct (is_toggle_or_mode ev) eqn:Hev.
  - destruct ev; try discriminate; unfold timer_ok in *.
    + unfold step, handle, toggleMonitoring. unfold_m. cbn.
      destruct (isActive (state w)) eqn:Ha; cbn.
      * destruct Hw as (id & k & Hi & _ & Ht). rewrite Hi. cbn. rewrite Ht.
        apply delete_singleton_eq.
      * destruct (falsy (apiKey (state w))) eqn:Hk; cbn; [rewrite Ha; exact Hw|].
        rewrite Hw. eexists _, _. split; [reflexivity|]. split; [exact Hk|].
        apply insert_empty.
    + unfold step, handle. unfold_m. cbn.
      destruct (isActive (state w)) eqn:Ha; cbn; rewrite Ha; exact Hw.
  - destruct (step_control w ev Hev) as (Ha & Hm & Hi & Ht).
    unfold timer_ok. rewrite Ha, Hm, Hi, Ht. exact Hw.
Qed.

Lemma run_timer_ok evs : forall w, timer_ok w -> timer_ok (run w evs).
Proof.
  induction evs as [|ev evs IH]; intros w Hw; [exact Hw|].
  apply IH, step_timer_ok, Hw.
Qed.

(** X1: on a page run from its first render through any events, no timer
    is live while monitoring is off, so no tick starts a cycle; while it is
    on exactly one timer is live, the one [intervalRef] names, and its
    callback closed over the mode now shown and over a key that is not
    empty. *)
Theorem one_timer_while_active key synth fs evs :
  let w := run (mount key synth fs) evs in
  (isActive (state w) = false ->
   timers (host w) = ∅ /\ forall t, step w (Tick t) = w)
  /\ (isActive (state w) = true ->
      exists id k,
        intervalRef (refs w) = Some id
        /\ k <> ""
        /\ timers (host w)
           = {[ id := {| c_mode := mode (state w); c_apiKey := k |} ]}).
Proof.
  intros w. assert (Hok : timer_ok w) by (apply run_timer_ok; reflexivity).
  unfold timer_ok in Hok. split; intros Ha; rewrite Ha in Hok.
  - split; [exact Hok|]. intros t. apply step_tick_dead. rewrite Hok.
    apply lookup_empty.
  - destruct Hok as (id & k & Hi & Hk & Ht). exists id, k.
    split; [exact Hi|]. split; [|exact Ht]. intros ->. discriminate.
Qed.

(** ** Requests *)

Lemma step_requests w ev :
  requests (trace (host (step w ev))) = requests (trace (host w))
  \/ exists t cl video,
       ev = Tick t
       /\ timers (host w) !! t = Some cl
       /\ videoRef (refs w) = Some video
       /\ requests (trace (host (step w ev)))
          = request_of cl video :: requests (trace (host w)).
Proof.
  destruct ev; try (left; handler_cases; reflexivity).
  destruct (timers (host w) !! timer) as [cl|] eqn:Ht;
    [|left; rewrite (step_tick_dead _ _ Ht); reflexivity].
  destruct (videoRef (refs w)) as [video|] eqn:Hv;
    [|left; handler_cases; reflexivity].
  destruct (canvasRef (refs w)) as [canvas|] eqn:Hc;
    [|left; handler_cases; reflexivity].
  right. exists timer, cl, video. rewrite (step_tick _ _ _ _ _ Ht Hv Hc).
  auto.
Qed.




(** ** Starting *)

Lemma step_start w :
  isActive (state w) = false ->
  falsy (apiKey (state w)) = false ->
  step w ClickToggle
  = upd_refs (set_intervalRef (Some (next_timer (host w))))
      (upd_host
         (fun h =>
            emit (SetInterval (next_timer (host w)) 6000)
              (set_timers
                 (<[next_timer (host w) :=
                      {| c_mode := mode (state w); c_apiKey := apiKey (state w) |}]>
                    (timers h))
                 (S (next_timer (host w))) h))
         (upd_state
            (fun s => set_lastMessage (str "Mom is watching...")
                        (set_isActive true s)) w)).
Proof.
  intros Ha Hk. unfold step, handle, toggleMonitoring. unfold_m. cbn.
  rewrite Ha, Hk. reflexivity.
Qed.

Lemma step_refused w :
  isActive (state w) = false ->
  falsy (apiKey (state w)) = true ->
  step w ClickToggle
  = upd_host (emit (Alert "Please enter a Gemini API Key in settings."))
      (upd_state (set_settingsOpen true) w).
Proof.
  intros Ha Hk. unfold step, handle, toggleMonitoring. unfold_m. cbn.
  rewrite Ha, Hk. reflexivity.
Qed.

Lemma step_settings w :
  step w ClickSettings
  = upd_state (set_settingsOpen (negb (settingsOpen (state w)))) w.
Proof. reflexivity. Qed.

Lemma step_change_key w k :
  settingsOpen (state w) = true ->
  step w (ChangeApiKey k) = upd_state (set_apiKey k) w.
Proof. intros Ho. unfold step, handle. unfold_m. cbn. rewrite Ho. reflexivity. Qed.

Lemma step_save_close w :
  settingsOpen (state w) = true ->
  step w ClickSaveClose = upd_state (set_settingsOpen false) w.
Proof. intros Ho. unfold step, handle. unfold_m. cbn. rewrite Ho. reflexivity. Qed.

(** X3: the interval callback keeps the key it was started with.  When
    monitoring is started and the key is then replaced in the settings
    panel, the state holds the new key but the next cycle still sends its
    request with the old one (and with the prompt of the mode monitoring
    was started in). *)
Theorem running_timer_keeps_old_key w video canvas k' :
  isActive (state w) = false ->
  falsy (apiKey (state w)) = false ->
  settingsOpen (state w) = false ->
  videoRef (refs w) = Some video ->
  canvasRef (refs w) = Some canvas ->
  let w' := run w [ClickToggle; ClickSettings; ChangeApiKey k'; ClickSaveClose;
                   Tick (next_timer (host w))] in
  apiKey (state w') = k'
  /\ settingsOpen (state w') = false
  /\ requests (trace (host w'))
     = {| req_key := apiKey (state w);
          req_prompt := prompt_of (mode (state w));
          req_image := (capture video).2 |}
       :: requests (trace (host w)).
Proof.
  intros Ha Hk Ho Hv Hc w'. subst w'. unfold run. cbn [fold_left].
  rewrite (step_start _ Ha Hk), step_settings.
  rewrite step_change_key by (cbn; rewrite Ho; reflexivity).
  rewrite step_save_close by (cbn; rewrite Ho; reflexivity).
  erewrite step_tick; [|cbn; apply lookup_insert_eq|cbn; exact Hv|cbn; exact Hc].
  cbn. auto.
Qed.

Lemma running_timer_keeps_old_key_witness :
  let w := mount "old-key" None None in
  let w' := run w [ClickToggle; ClickSettings; ChangeApiKey "new-key";
                   ClickSaveClose; Tick 1] in
  apiKey (state w') = "new-key"
  /\ settingsOpen (state w') = false
  /\ requests (trace (host w'))
     = {| req_key := "old-key"; req_prompt := prompt_of homework;
          req_image := (capture {| srcObject := None |}).2 |}
       :: requests (trace (host w)).
Proof.
  apply (running_timer_keeps_old_key (mount "old-key" None None)
           {| srcObject := None |} watching_canvas "new-key");
    reflexivity.
Defined.

(** X4: a start refused for want of a key is recovered in the settings
    panel it opened: once a key is typed there and the panel closed, the
    next click on start switches monitoring on, shows ["Mom is
    watching..."] and creates one timer of period 6000 ms closing over
    that key and the current mode.  The status is not touched by the
    start, and no request is sent before the first tick. *)
Theorem refused_start_recovers w k :
  isActive (state w) = false ->
  apiKey (state w) = "" ->
  falsy k = false ->
  let id := next_timer (host w) in
  let w' := run w [ClickToggle; ChangeApiKey k; ClickSaveClose; ClickToggle] in
  isActive (state w') = true
  /\ apiKey (state w') = k
  /\ settingsOpen (state w') = false
  /\ lastMessage (state w') = str "Mom is watching..."
  /\ status (state w') = status (state w)
  /\ intervalRef (refs w') = Some id
  /\ timers (host w')
     = <[id := {| c_mode := mode (state w); c_apiKey := k |}]> (timers (host w))
  /\ trace (host w')
     = SetInterval id 6000
       :: Alert "Please enter a Gemini API Key in settings." :: trace (host w)
  /\ inflight (host w') = inflight (host w).
Proof.
  intros Ha Hk Hk' id w'. subst id w'. unfold run. cbn [fold_left].
  rewrite (step_refused _ Ha) by (rewrite Hk; reflexivity).
  rewrite step_change_key by reflexivity.
  rewrite step_save_close by reflexivity.
  rewrite step_start; [|exact Ha|exact Hk'].
  cbn. auto 10.
Qed.

Lemma refused_start_recovers_witness :
  let w := mount "" None None in
  let w' := run w [ClickToggle; ChangeApiKey "key"; ClickSaveClose; ClickToggle] in
  isActive (state w') = true
  /\ apiKey (state w') = "key"
  /\ settingsOpen (state w') = false
  /\ lastMessage (state w') = str "Mom is watching..."
  /\ status (state w') = status (state w)
  /\ intervalRef (refs w') = Some 1
  /\ timers (host w')
     = <[1 := {| c_mode := homework; c_apiKey := "key" |}]> (timers (host w))
  /\ trace (host w')
     = SetInterval 1 6000
       :: Alert "Please enter a Gemini API Key in settings." :: trace (host w)
  /\ inflight (host w') = inflight (host w).
Proof.
  apply (refused_start_recovers (mount "" None None) "key"); reflexivity.
Defined.

(** ** Configuration *)

(** X5: the key the page starts with is the environment's
    [VITE_GEMINI_API_KEY].  When the environment is missing, or the
    variable is unset or empty, [getEnvVar] gives the empty string and the
    first click on start is refused with the alert; when it is set, the
    first click starts monitoring with that key, no alert, no settings
    panel. *)
Theorem env_key_decides_first_start env parsed sdk synth :
  let w := step (boot env parsed sdk synth) ClickToggle in
  match env ≫= (.!! "VITE_GEMINI_API_KEY") with
  | Some (String c k) =>
      isActive (state w) = true
      /\ settingsOpen (state w) = false
      /\ timers (host w) = {[ 1 := {| c_mode := homework; c_apiKey := String c k |} ]}
      /\ trace (host w) = [SetInterval 1 6000]
  | _ =>
      getEnvVar env "VITE_GEMINI_API_KEY" = ""
      /\ isActive (state w) = false
      /\ settingsOpen (state w) = true
      /\ timers (host w) = ∅
      /\ trace (host w) = [Alert "Please enter a Gemini API Key in settings."]
  end.
Proof.
  unfold boot, getEnvVar.
  destruct env as [vars|]; cbn; [|auto 10].
  destruct (vars !! "VITE_GEMINI_API_KEY") as [[|c k]|]; cbn; auto 10.
Qed.

(** ** The sink *)

Lemma step_db w ev : db (host (step w ev)) = db (host w).
Proof. destruct ev; handler_cases; reflexivity. Qed.

Lemma step_no_sink w ev :
  db (host w) = None ->
  writes (trace (host (step w ev))) = writes (trace (host w))
  /\ pending_writes (host (step w ev)) <= pending_writes (host w).
Proof.
  intros Hdb. destruct ev; handler_cases;
    try (split; [reflexivity | lia]); congruence.
Qed.

Lemma run_no_sink evs : forall w,
  db (host w) = None ->
  db (host (run w evs)) = None
  /\ writes (trace (host (run w evs))) = writes (trace (host w))
  /\ pending_writes (host (run w evs)) <= pending_writes (host w).
Proof.
  induction evs as [|ev evs IH]; intros w Hdb; [auto|].
  cbn [run fold_left].
  destruct (step_no_sink w ev Hdb) as [<- Hle].
  destruct (IH (step w ev)) as (H1 & H2 & H3); [rewrite step_db; exact Hdb|].
  split; [exact H1|]. split; [exact H2|]. unfold run in H3. lia.
Qed.

(** X6: without a usable Firebase configuration the page never writes.
    When [VITE_FIREBASE_CONFIG] is empty, or its text does not parse, or the
    SDK throws while being set up, [db] is [null], and then no run of the
    page hands a document to the sink or leaves a write pending, however
    many violations are found. *)
Theorem no_config_no_writes raw parsed sdk key synth evs :
  falsy raw = true \/ (exists e, parsed = Throw e) \/ (exists e, sdk = Throw e) ->
  let w := run (mount key synth (firebase_init raw parsed sdk).1) evs in
  (firebase_init raw parsed sdk).1 = None
  /\ db (host w) = None
  /\ writes (trace (host w)) = []
  /\ pending_writes (host w) = 0.
Proof.
  intros Hbad w.
  assert (Hnone : (firebase_init raw parsed sdk).1 = None).
  { unfold firebase_init. destruct (falsy raw); [reflexivity|].
    destruct Hbad as [Hf | [[e ->] | [e ->]]]; [discriminate|reflexivity|].
    destruct parsed; reflexivity. }
  split; [exact Hnone|]. subst w. rewrite Hnone.
  destruct (run_no_sink evs (mount key synth None) eq_refl) as (H1 & H2 & H3).
  split; [exact H1|]. split; [exact H2|]. cbn in H3. lia.
Qed.

Lemma no_config_no_writes_witness :
  let w :=
    run (mount "key" (Some samantha)
           (firebase_init "{not json" (Throw SyntaxError)
              (Normal {| currentUser := None |})).1)
      [ClickToggle; Tick 1; FetchSettles 0 (Fulfilled http_200);
       JsonSettles 0 (Fulfilled (reply (verdict_text "bad" "Sit up straight")))
         (Normal (verdict "bad" "Sit up straight"))] in
  (firebase_init "{not json" (Throw SyntaxError)
     (Normal {| currentUser := None |})).1 = None
  /\ db (host w) = None
  /\ writes (trace (host w)) = []
  /\ pending_writes (host w) = 0.
Proof.
  apply (no_config_no_writes "{not json" (Throw SyntaxError)
           (Normal {| currentUser := None |}) "key" (Some samantha)).
  right. left. exists SyntaxError. reflexivity.
Defined.

Lemma uid_or_anon_not_empty fs : falsy (uid_or_anon fs) = false.
Proof.
  unfold uid_or_anon. destruct (currentUser fs) as [u|]; [|reflexivity].
  destruct (falsy u) eqn:Hu; [reflexivity | exact Hu].
Qed.

Lemma decoded_bad_sink cl w data t result message fs :
  candidate_text data = Normal t ->
  get (of_json result) "status" = Normal (str "bad") ->
  get (of_json result) "message" = Normal message ->
  db (host w) = Some fs ->
  let w' := exec (analyzeFrame_decoded cl (Fulfilled data) (Normal result)) w in
  writes (trace (host w'))
  = {| doc_mode := c_mode cl; doc_message := message;
       doc_type := "violation"; doc_uid := uid_or_anon fs |}
    :: writes (trace (host w))
  /\ pending_writes (host w') = S (pending_writes (host w)).
Proof.
  intros Ht Hs Hm Hdb. unfold analyzeFrame_decoded. unfold_m. cbn.
  rewrite Ht. cbn. rewrite Hs. cbn. rewrite Hm. cbn.
  destruct (speechSynthesis (host w)) as [s|]; cbn;
    [destruct (speaking s); cbn;
     [|destruct (find is_female (getVoices s)); cbn]|];
    rewrite Hdb; cbn; auto.
Qed.

(** X7: a violation found while a sink is configured is written once, as
    a document carrying the mode monitoring was started in, the verdict's
    message, the type ["violation"] and a user id that is never empty:
    ["anon"] when nobody is signed in or the id is the empty string.  One
    write is then pending. *)
Theorem violation_is_written
    w timer cl video canvas resp data t result message fs :
  timers (host w) !! timer = Some cl ->
  videoRef (refs w) = Some video ->
  canvasRef (refs w) = Some canvas ->
  candidate_text data = Normal t ->
  get (of_json result) "status" = Normal (str "bad") ->
  get (of_json result) "message" = Normal message ->
  db (host w) = Some fs ->
  let w' := cycle w timer (Fulfilled resp) (Fulfilled data) (Normal result) in
  writes (trace (host w'))
  = {| doc_mode := c_mode cl; doc_message := message;
       doc_type := "violation"; doc_uid := uid_or_anon fs |}
    :: writes (trace (host w))
  /\ pending_writes (host w') = S (pending_writes (host w))
  /\ falsy (uid_or_anon fs) = false
  /\ match currentUser fs with
     | Some (String c u) => uid_or_anon fs = String c u
     | _ => uid_or_anon fs = "anon"
     end.
Proof.
  intros Hl Hv Hc Ht Hs Hm Hdb w'. subst w'.
  rewrite (cycle_fulfilled _ _ _ _ _ Hl Hv Hc).
  destruct (decoded_bad_sink cl (sent cl video w) _ _ _ _ fs Ht Hs Hm Hdb)
    as [-> ->].
  repeat split; [apply uid_or_anon_not_empty|].
  unfold uid_or_anon. destruct (currentUser fs) as [[|c u]|]; reflexivity.
Qed.

Lemma violation_is_written_witness :
  let w' := cycle watching 1 (Fulfilled http_200)
              (Fulfilled (reply (verdict_text "bad" "Sit up straight")))
              (Normal (verdict "bad" "Sit up straight")) in
  let fs := {| currentUser := None |} in
  writes (trace (host w'))
  = {| doc_mode := homework; doc_message := str "Sit up straight";
       doc_type := "violation"; doc_uid := uid_or_anon fs |}
    :: writes (trace (host watching))
  /\ pending_writes (host w') = S (pending_writes (host watching))
  /\ falsy (uid_or_anon fs) = false
  /\ uid_or_anon fs = "anon".
Proof.
  apply (violation_is_written watching 1 watching_closure
           {| srcObject := Some camera |} watching_canvas http_200
           (reply (verdict_text "bad" "Sit up straight"))
           (str (verdict_text "bad" "Sit up straight"))
           (verdict "bad" "Sit up straight") (str "Sit up straight")
           {| currentUser := None |});
    reflexivity.
Defined.

(** ** The voice *)

Lemma find_first {A} (f : A -> bool) l x :
  find f l = Some x ->
  exists before after,
    l = (before ++ x :: after)%list /\ f x = true
    /\ Forall (fun y => f y = false) before.
Proof.
  induction l as [|y l IH]; [discriminate|]. cbn.
  destruct (f y) eqn:Hy.
  - intros [= ->]. exists [], l. auto.
  - intros Hx. destruct (IH Hx) as (b & a & -> & Hfx & Hb).
    exists (y :: b), a. auto.
Qed.

(** X8: on an idle device [speakText] hands over exactly one utterance,
    with the text given, rate 1 and pitch 1.1.  Its voice is the first of
    the device's voices whose name contains ["Female"], ["Samantha"] or
    ["Google US English"] and does not contain ["Male"]; it is left to the
    device's default exactly when no voice qualifies, in particular when
    the device lists none. *)
Theorem voice_is_first_female w s t :
  speechSynthesis (host w) = Some s ->
  speaking s = false ->
  exists u,
    deliveries (trace (host (exec (speakText t) w)))
    = u :: deliveries (trace (host w))
    /\ text u = t /\ rate u = 1.0%float /\ pitch u = 1.1%float
    /\ match voice u with
       | Some v =>
           exists before after,
             getVoices s = (before ++ v :: after)%list
             /\ (includes (name v) "Female" = true
                 \/ includes (name v) "Samantha" = true
                 \/ includes (name v) "Google US English" = true)
             /\ includes (name v) "Male" = false
             /\ Forall (fun v' => is_female v' = false) before
       | None => Forall (fun v' => is_female v' = false) (getVoices s)
       end.
Proof.
  intros Hs Hsp. unfold_m. cbn. rewrite Hs. cbn. rewrite Hsp. cbn.
  destruct (find is_female (getVoices s)) as [v|] eqn:Hf; cbn;
    eexists; (split; [reflexivity|]); cbn; repeat (split; [reflexivity|]).
  - destruct (find_first _ _ _ Hf) as (b & a & Hl & Hv & Hb).
    exists b, a. split; [exact Hl|]. unfold is_female in Hv.
    apply andb_true_iff in Hv as [Hor Hm].
    apply negb_true_iff in Hm. split; [|split; [exact Hm | exact Hb]].
    apply orb_true_iff in Hor as [Hor|?]; [|auto].
    apply orb_true_iff in Hor as [?|?]; auto.
  - apply Forall_forall. intros v Hin. apply list_elem_of_In in Hin.
    exact (find_none _ _ Hf v Hin).
Qed.

Lemma voice_is_first_female_witness :
  exists u,
    deliveries (trace (host (exec (speakText (str "Sit up straight")) watching)))
    = u :: deliveries (trace (host watching))
    /\ text u = str "Sit up straight"
    /\ rate u = 1.0%float /\ pitch u = 1.1%float
    /\ match voice u with
       | Some v =>
           exists before after,
             getVoices samantha = (before ++ v :: after)%list
             /\ (includes (name v) "Female" = true
                 \/ includes (name v) "Samantha" = true
                 \/ includes (name v) "Google US English" = true)
             /\ includes (name v) "Male" = false
             /\ Forall (fun v' => is_female v' = false) before
       | None => Forall (fun v' => is_female v' = false) (getVoices samantha)
       end.
Proof.
  apply (voice_is_first_female watching samantha (str "Sit up straight"));
    reflexivity.
Defined.

Example male_voice_is_passed_over :
  find is_female
    [{| name := "Google UK English Male" |};
     {| name := "Microsoft David - Female Male" |};
     {| name := "Google US English" |}]
  = Some {| name := "Google US English" |}.
Proof. reflexivity. Qed.

(** ** A warning that meets a busy device *)

(** X9: a violation found while the device is still speaking is shown and
    recorded but not spoken, then or later: the cycle ends in [warning]
    with the new message and one [logEvent] call, while nothing is handed
    to the device and its queue is what it was. *)
Theorem warning_while_speaking_is_silent
    w timer cl video canvas resp data t result message s :
  timers (host w) !! timer = Some cl ->
  videoRef (refs w) = Some video ->
  canvasRef (refs w) = Some canvas ->
  candidate_text data = Normal t ->
  get (of_json result) "status" = Normal (str "bad") ->
  get (of_json result) "message" = Normal message ->
  speechSynthesis (host w) = Some s ->
  speaking s = true ->
  let w' := cycle w timer (Fulfilled resp) (Fulfilled data) (Normal result) in
  status (state w') = warning
  /\ lastMessage (state w') = message
  /\ record_calls (trace (host w'))
     = (message, "violation") :: record_calls (trace (host w))
  /\ deliveries (trace (host w')) = deliveries (trace (host w))
  /\ speechSynthesis (host w') = Some s.
Proof.
  intros Hl Hv Hc Ht Hs Hm Hsy Hsp w'. subst w'.
  rewrite (cycle_fulfilled _ _ _ _ _ Hl Hv Hc).
  unfold analyzeFrame_decoded. unfold_m. cbn.
  rewrite Ht. cbn. rewrite Hs. cbn. rewrite Hm. cbn.
  rewrite Hsy. cbn. rewrite Hsp. cbn.
  destruct (db (host w)); cbn; rewrite Hsy; auto 10.
Qed.

Lemma warning_while_speaking_is_silent_witness :
  let busy := exec (speakText (str "Sit up straight")) watching in
  let s := {| getVoices := getVoices samantha;
              queue := [{| text := str "Sit up straight"; rate := 1.0;
                           pitch := 1.1;
                           voice := Some {| name := "Samantha" |} |}] |} in
  let w' := cycle busy 1 (Fulfilled http_200)
              (Fulfilled (reply (verdict_text "bad" "Eyes on your book")))
              (Normal (verdict "bad" "Eyes on your book")) in
  status (state w') = warning
  /\ lastMessage (state w') = str "Eyes on your book"
  /\ record_calls (trace (host w'))
     = (str "Eyes on your book", "violation") :: record_calls (trace (host busy))
  /\ deliveries (trace (host w')) = deliveries (trace (host busy))
  /\ speechSynthesis (host w') = Some s.
Proof.
  apply (warning_while_speaking_is_silent
           (exec (speakText (str "Sit up straight")) watching) 1
           watching_closure {| srcObject := Some camera |} watching_canvas
           http_200
           (reply (verdict_text "bad" "Eyes on your book"))
           (str (verdict_text "bad" "Eyes on your book"))
           (verdict "bad" "Eyes on your book") (str "Eyes on your book"));
    reflexivity.
Defined.

(** ** The frame *)

Lemma split_comma_cons c rest :
  split_comma (String c rest)
  = if Ascii.eqb c ","%char then EmptyString :: split_comma rest
    else match split_comma rest with
         | [] => [String c EmptyString]
         | piece :: pieces => String c piece :: pieces
         end.
Proof. reflexivity. Qed.

Lemma includes_cons c rest needle :
  includes (String c rest) needle
  = String.prefix needle (String c rest) || includes rest needle.
Proof. reflexivity. Qed.

Lemma split_comma_no_comma x : includes x "," = false -> split_comma x = [x].
Proof.
  induction x as [|c x IH]; [reflexivity|].
  rewrite includes_cons, split_comma_cons.
  intros H. apply orb_false_iff in H as [Hc Hx].
  destruct (Ascii.eqb_spec c ","%char) as [->|Hne].
  - destruct x; discriminate.
  - rewrite (IH Hx). reflexivity.
Qed.

Lemma split_comma_first p x :
  includes p "," = false ->
  split_comma (p +:+ String "," x) = p :: split_comma x.
Proof.
  induction p as [|c p IH]; [reflexivity|].
  rewrite includes_cons. intros H. apply orb_false_iff in H as [Hc Hp].
  change (String c p +:+ String "," x) with (String c (p +:+ String "," x)).
  rewrite split_comma_cons, (IH Hp).
  destruct (Ascii.eqb_spec c ","%char) as [->|Hne]; [|reflexivity].
  destruct p; discriminate.
Qed.

Lemma split_data_url_payload x :
  includes x "," = false ->
  split_comma ("data:image/jpeg;base64," +:+ x) !! 1 = Some x.
Proof.
  intros Hx.
  change ("data:image/jpeg;base64," +:+ x)
    with ("data:image/jpeg;base64" +:+ String "," x).
  rewrite split_comma_first by (vm_compute; reflexivity).
  rewrite (split_comma_no_comma _ Hx). reflexivity.
Qed.

Lemma capture_image s :
  includes (frame_jpeg s) "," = false ->
  (capture {| srcObject := Some s |}).2
  = Some (if negb (Nat.eqb (frame_width s) 0 || Nat.eqb (frame_height s) 0)
          then frame_jpeg s else "").
Proof.
  intros Hj. unfold capture, toDataURL. cbn.
  destruct (Nat.eqb (frame_width s) 0 || Nat.eqb (frame_height s) 0); cbn.
  - reflexivity.
  - apply split_data_url_payload, Hj.
Qed.

(** X10: the image a cycle sends is the camera's current frame.  With a
    stream attached whose JPEG encoding (base64, hence without a comma)
    is [frame_jpeg], the canvas takes the size of the video and the
    request carries exactly that encoding, cut out of the data URL; while
    the stream has no size yet the request carries the empty string. *)
Theorem request_carries_current_frame w timer cl canvas s :
  timers (host w) !! timer = Some cl ->
  videoRef (refs w) = Some {| srcObject := Some s |} ->
  canvasRef (refs w) = Some canvas ->
  includes (frame_jpeg s) "," = false ->
  let w' := step w (Tick timer) in
  let sized := negb (Nat.eqb (frame_width s) 0 || Nat.eqb (frame_height s) 0) in
  canvasRef (refs w')
  = Some {| width := frame_width s; height := frame_height s;
            bitmap := frame_jpeg s |}
  /\ requests (trace (host w'))
     = {| req_key := c_apiKey cl; req_prompt := prompt_of (c_mode cl);
          req_image := Some (if sized then frame_jpeg s else "") |}
       :: requests (trace (host w)).
Proof.
  intros Hl Hv Hc Hj w' sized. subst w' sized.
  rewrite (step_tick _ _ _ _ _ Hl Hv Hc). cbn.
  split; [reflexivity|]. unfold request_of. rewrite (capture_image _ Hj).
  reflexivity.
Qed.

Lemma request_carries_current_frame_witness :
  let w' := step watching (Tick 1) in
  canvasRef (refs w')
  = Some {| width := 640; height := 480; bitmap := "/9j/4AAQSkZJRg" |}
  /\ requests (trace (host w'))
     = {| req_key := "key"; req_prompt := prompt_of homework;
          req_image := Some "/9j/4AAQSkZJRg" |}
       :: requests (trace (host watching)).
Proof.
  apply (request_carries_current_frame watching 1 watching_closure
           watching_canvas camera);
    reflexivity.
Defined.

(** ** How a cycle ends *)

Lemma strict_eq_str_true v s : strict_eq_str v s = true -> v = str s.
Proof.
  destruct v as [|[]]; try discriminate. cbn. intros H.
  apply String.eqb_eq in H. subst. reflexivity.
Qed.

(** X11: a cycle whose two promises have settled never stays in
    [analyzing]; it ends in exactly one of three ways.  The client threw:
    [error], last message kept.  The verdict's status is ["bad"]:
    [warning] with the verdict's message.  Anything else that parsed to
    a value other than [null]: [good] with ["Mom is happy."]. *)
Theorem cycle_ends_decided w timer cl video canvas r body parsed :
  timers (host w) !! timer = Some cl ->
  videoRef (refs w) = Some video ->
  canvasRef (refs w) = Some canvas ->
  let w' := cycle w timer r body parsed in
  ((exists e, client_throws r body parsed e)
   /\ status (state w') = error
   /\ lastMessage (state w') = lastMessage (state w))
  \/ (exists resp data t result message,
        r = Fulfilled resp /\ body = Fulfilled data /\ parsed = Normal result
        /\ candidate_text data = Normal t
        /\ get (of_json result) "status" = Normal (str "bad")
        /\ get (of_json result) "message" = Normal message
        /\ status (state w') = warning
        /\ lastMessage (state w') = message)
  \/ (exists resp data t result st,
        r = Fulfilled resp /\ body = Fulfilled data /\ parsed = Normal result
        /\ candidate_text data = Normal t
        /\ get (of_json result) "status" = Normal st
        /\ strict_eq_str st "bad" = false
        /\ status (state w') = good
        /\ lastMessage (state w') = str "Mom is happy.").
Proof.
  intros Hl Hv Hc w'. subst w'.
  assert (Hthrow : forall e, client_throws r body parsed e ->
            (exists e, client_throws r body parsed e)
            /\ status (state (cycle w timer r body parsed)) = error
            /\ lastMessage (state (cycle w timer r body parsed))
               = lastMessage (state w)).
  { intros e He. split; [exists e; exact He|].
    rewrite (cycle_throws _ _ _ _ _ _ _ _ _ Hl Hv Hc He). auto. }
  destruct r as [resp|e]; [|left; apply (Hthrow e); constructor].
  destruct body as [data|e]; [|left; apply (Hthrow e); constructor].
  destruct (candidate_text data) as [t|e] eqn:Ht;
    [|left; apply (Hthrow e), no_candidate_text, Ht].
  destruct parsed as [result|e];
    [|left; apply (Hthrow e), (text_not_json _ _ t), Ht].
  assert (result = JNull \/ result <> JNull) as [->|Hnn]
    by (destruct result; auto; right; discriminate);
    [left; apply (Hthrow TypeError), (verdict_null _ _ t), Ht|].
  destruct (get_not_null result "status" Hnn) as [st Hst].
  destruct (get_not_null result "message" Hnn) as [m Hm].
  clear Hthrow. right.
  rewrite (cycle_fulfilled _ _ _ _ _ Hl Hv Hc).
  destruct (strict_eq_str st "bad") eqn:Hbad.
  - apply strict_eq_str_true in Hbad. subst st. left.
    destruct (decoded_bad cl (sent cl video w) _ _ _ _ Ht Hst Hm) as (-> & _).
    exists resp, data, t, result, m. auto 10.
  - right. rewrite (decoded_lenient _ _ _ _ _ _ Ht Hst Hbad).
    exists resp, data, t, result, st. auto 10.
Qed.

Lemma cycle_ends_decided_witness :
  let r := Fulfilled http_200 in
  let body := Fulfilled (reply "[]") in
  let parsed := Normal (JArr []) in
  let w' := cycle watching 1 r body parsed in
  ((exists e, client_throws r body parsed e)
   /\ status (state w') = error
   /\ lastMessage (state w') = lastMessage (state watching))
  \/ (exists resp data t result message,
        r = Fulfilled resp /\ body = Fulfilled data /\ parsed = Normal result
        /\ candidate_text data = Normal t
        /\ get (of_json result) "status" = Normal (str "bad")
        /\ get (of_json result) "message" = Normal message
        /\ status (state w') = warning
        /\ lastMessage (state w') = message)
  \/ (exists resp data t result st,
        r = Fulfilled resp /\ body = Fulfilled data /\ parsed = Normal result
        /\ candidate_text data = Normal t
        /\ get (of_json result) "status" = Normal st
        /\ strict_eq_str st "bad" = false
        /\ status (state w') = good
        /\ lastMessage (state w') = str "Mom is happy.").
Proof.
  apply (cycle_ends_decided watching 1 watching_closure
           {| srcObject := Some camera |} watching_canvas);
    reflexivity.
Defined.

Example empty_array_verdict_is_good :
  status (state (cycle watching 1 (Fulfilled http_200) (Fulfilled (reply "[]"))
                   (Normal (JArr [])))) = good.
Proof. vm_compute. reflexivity. Qed.

(** ** Overlapping cycles *)

Lemma decoded_frame cl body parsed w :
  let w' := exec (analyzeFrame_decoded cl body parsed) w in
  refs w' = refs w
  /\ inflight (host w') = inflight (host w)
  /\ next_cycle (host w') = next_cycle (host w)
  /\ timers (host w') = timers (host w)
  /\ requests (trace (host w')) = requests (trace (host w)).
Proof.
  unfold analyzeFrame_decoded. unfold_m. cbn.
  repeat (case_match; cbn in * ); simplify_eq; cbn; auto 10.
Qed.

Lemma decoded_inflight cl body parsed w :
  inflight (host (exec (analyzeFrame_decoded cl body parsed) w))
  = inflight (host w).
Proof. apply (decoded_frame cl body parsed w). Qed.

Lemma decoded_requests cl body parsed w :
  requests (trace (host (exec (analyzeFrame_decoded cl body parsed) w)))
  = requests (trace (host w)).
Proof. apply (decoded_frame cl body parsed w). Qed.

(** X12: nothing keeps two cycles from overlapping, and the answer that
    settles last decides.  When the interval fires again while a request
    is still out, a second request is sent; if the answer to the second
    arrives first and the answer to the first afterwards, the page ends
    in the status the first, older cycle gives, whatever the newer one
    had shown. *)
Theorem older_answer_settling_last_wins
    w timer cl video canvas resp1 body1 parsed1 resp2 body2 parsed2 :
  timers (host w) !! timer = Some cl ->
  videoRef (refs w) = Some video ->
  canvasRef (refs w) = Some canvas ->
  let id := next_cycle (host w) in
  let both := run w [Tick timer; Tick timer] in
  let w' := run both [FetchSettles (S id) (Fulfilled resp2);
                      JsonSettles (S id) body2 parsed2;
                      FetchSettles id (Fulfilled resp1);
                      JsonSettles id body1 parsed1] in
  (inflight (host both) !! id = Some {| captured := cl; stage := AwaitFetch |}
   /\ inflight (host both) !! S id = Some {| captured := cl; stage := AwaitFetch |}
   /\ requests (trace (host both))
      = request_of cl video :: request_of cl video :: requests (trace (host w)))
  /\ status (state w')
     = status (state (cycle w timer (Fulfilled resp1) body1 parsed1)).
Proof.
  intros Hl Hv Hc id both w'. subst id both w'. unfold run. cbn [fold_left].
  rewrite (step_tick _ _ _ _ _ Hl Hv Hc).
  erewrite step_tick; [|cbn; exact Hl|cbn; exact Hv|cbn; reflexivity].
  cbn [next_cycle host upd_host set_inflight emit upd_refs upd_state].
  split.
  - cbn. rewrite lookup_insert_ne by lia. rewrite !lookup_insert_eq. auto.
  - rewrite (step_fetch_fulfilled _ (S (next_cycle (host w))) cl resp2)
      by (cbn; apply lookup_insert_eq).
    rewrite (step_json _ (S (next_cycle (host w))) cl resp2)
      by (cbn; apply lookup_insert_eq).
    rewrite (step_fetch_fulfilled _ (next_cycle (host w)) cl resp1);
      [|rewrite decoded_inflight; cbn;
        rewrite lookup_delete_ne, lookup_insert_ne, lookup_delete_ne,
          lookup_insert_ne, lookup_insert_eq by lia; reflexivity].
    rewrite (step_json _ (next_cycle (host w)) cl resp1)
      by (cbn; apply lookup_insert_eq).
    rewrite (cycle_fulfilled _ _ _ _ _ Hl Hv Hc).
    apply decoded_state_indep.
Qed.

Lemma older_answer_settling_last_wins_witness :
  let both := run watching [Tick 1; Tick 1] in
  let w' := run both
              [FetchSettles 1 (Fulfilled http_200);
               JsonSettles 1
                 (Fulfilled (reply (verdict_text "good" "Well done")))
                 (Normal (verdict "good" "Well done"));
               FetchSettles 0 (Fulfilled http_200);
               JsonSettles 0
                 (Fulfilled (reply (verdict_text "bad" "Sit up straight")))
                 (Normal (verdict "bad" "Sit up straight"))] in
  (inflight (host both) !! 0
   = Some {| captured := watching_closure; stage := AwaitFetch |}
   /\ inflight (host both) !! 1
      = Some {| captured := watching_closure; stage := AwaitFetch |}
   /\ requests (trace (host both))
      = request_of watching_closure {| srcObject := Some camera |}
        :: request_of watching_closure {| srcObject := Some camera |}
        :: requests (trace (host watching)))
  /\ status (state w')
     = status (state (cycle watching 1 (Fulfilled http_200)
                        (Fulfilled (reply (verdict_text "bad" "Sit up straight")))
                        (Normal (verdict "bad" "Sit up straight")))).
Proof.
  apply (older_answer_settling_last_wins watching 1 watching_closure
           {| srcObject := Some camera |} watching_canvas
           http_200 (Fulfilled (reply (verdict_text "bad" "Sit up straight")))
           (Normal (verdict "bad" "Sit up straight"))
           http_200 (Fulfilled (reply (verdict_text "good" "Well done")))
           (Normal (verdict "good" "Well done")));
    reflexivity.
Defined.

(** ** Reactions *)






(** ** While monitoring is off *)

Lemma step_isActive w ev :
  ev <> ClickToggle -> isActive (state (step w ev)) = isActive (state w).
Proof.
  intros Hev. destruct (is_toggle_or_mode ev) eqn:Ht.
  - destruct ev; try discriminate; [contradiction|].
    unfold step, handle. unfold_m. cbn.
    destruct (isActive (state w)) eqn:Ha; cbn; exact Ha.
  - apply (step_control w ev Ht).
Qed.

Lemma run_off_sends_nothing evs : forall w,
  timer_ok w ->
  isActive (state w) = false ->
  Forall (fun ev => ev <> ClickToggle) evs ->
  isActive (state (run w evs)) = false
  /\ requests (trace (host (run w evs))) = requests (trace (host w)).
Proof.
  induction evs as [|ev evs IH]; intros w Hok Ha Hevs; [auto|].
  inversion Hevs as [|? ? Hev Hrest]; subst. cbn [run fold_left].
  assert (Ha' : isActive (state (step w ev)) = false)
    by (rewrite (step_isActive _ _ Hev); exact Ha).
  destruct (IH (step w ev) (step_timer_ok _ _ Hok) Ha' Hrest) as [H1 H2].
  split; [exact H1|]. unfold run in H2. rewrite H2.
  destruct (step_requests w ev) as [Heq | (t & cl & video & _ & Ht & _)];
    [exact Heq|].
  unfold timer_ok in Hok. rewrite Ha in Hok.
  rewrite Hok, lookup_empty in Ht. discriminate.
Qed.

(** X14: while monitoring is off the page sends nothing to the inference
    API.  From any state a run from the first render has reached with
    monitoring off, no sequence of events without a click on the start
    button switches monitoring on or sends a request: late ticks, late
    answers, settings and mode changes included. *)
Theorem off_sends_nothing key synth fs before after :
  isActive (state (run (mount key synth fs) before)) = false ->
  Forall (fun ev => ev <> ClickToggle) after ->
  let w := run (mount key synth fs) before in
  isActive (state (run w after)) = false
  /\ requests (trace (host (run w after))) = requests (trace (host w)).
Proof.
  intros Ha Hevs w. apply run_off_sends_nothing; [|exact Ha|exact Hevs].
  apply run_timer_ok. reflexivity.
Qed.

Lemma off_sends_nothing_witness :
  let w := run (mount "key" None None) [ClickToggle; Tick 1; ClickToggle] in
  let after := [Tick 1; FetchSettles 0 (Fulfilled http_200);
                JsonSettles 0
                  (Fulfilled (reply (verdict_text "bad" "Sit up straight")))
                  (Normal (verdict "bad" "Sit up straight"));
                ClickMode eating; Tick 1] in
  isActive (state (run w after)) = false
  /\ requests (trace (host (run w after))) = requests (trace (host w)).
Proof.
  apply (off_sends_nothing "key" None None [ClickToggle; Tick 1; ClickToggle]).
  - reflexivity.
  - repeat constructor; discriminate.
Defined.

(** ** The mode *)

(** X15: the mode chosen before the start selects the prompt, and it
    cannot be changed while monitoring runs.  After a mode button, a start
    and a further mode button, the mode is still the first choice and the
    next cycle sends the prompt of that mode. *)
Theorem mode_before_start_selects_prompt w video canvas m m' :
  isActive (state w) = false ->
  falsy (apiKey (state w)) = false ->
  videoRef (refs w) = Some video ->
  canvasRef (refs w) = Some canvas ->
  let w' := run w [ClickMode m; ClickToggle; ClickMode m';
                   Tick (next_timer (host w))] in
  mode (state w') = m
  /\ requests (trace (host w'))
     = {| req_key := apiKey (state w); req_prompt := prompt_of m;
          req_image := (capture video).2 |}
       :: requests (trace (host w)).
Proof.
  intros Ha Hk Hv Hc w'. subst w'. unfold run. cbn [fold_left].
  assert (H1 : step w (ClickMode m) = upd_state (set_mode m) w).
  { unfold step, handle. unfold_m. cbn. rewrite Ha. reflexivity. }
  rewrite H1. rewrite step_start by (cbn; assumption).
  match goal with
  | |- context [step ?a (ClickMode m')] =>
      assert (H2 : step a (ClickMode m') = a) by reflexivity; rewrite H2
  end.
  erewrite step_tick; [|cbn; apply lookup_insert_eq|cbn; exact Hv|cbn; exact Hc].
  cbn. auto.
Qed.

Lemma mode_before_start_selects_prompt_witness :
  let w := mount "key" None None in
  let w' := run w [ClickMode eating; ClickToggle; ClickMode homework; Tick 1] in
  mode (state w') = eating
  /\ requests (trace (host w'))
     = {| req_key := "key"; req_prompt := prompt_of eating;
          req_image := (capture {| srcObject := None |}).2 |}
       :: requests (trace (host w)).
Proof.
  apply (mode_before_start_selects_prompt (mount "key" None None)
           {| srcObject := None |} watching_canvas eating homework);
    reflexivity.
Defined.

(** ** The camera *)

Lemma step_camera_attached w video stream :
  videoRef (refs w) = Some video ->
  step w (CameraSettles (Fulfilled stream))
  = upd_refs (set_videoRef (Some {| srcObject := Some stream |})) w.
Proof.
  intros Hv. unfold step, handle, startCamera. unfold_m. cbn. rewrite Hv.
  reflexivity.
Qed.

Lemma step_camera_refused w e :
  step w (CameraSettles (Rejected e))
  = upd_state (set_lastMessage (str "Camera unavailable."))
      (upd_host (emit (ConsoleError "Camera Error:" e)) w).
Proof. reflexivity. Qed.

(** X16: what [getUserMedia] settles to decides what the cycles see.  A
    stream is attached to the video element and the message is left
    alone; a refusal is logged and the message becomes ["Camera
    unavailable."].  Neither changes the status or switches monitoring
    on.  In both cases a following start goes through and shows ["Mom is
    watching..."], and the first cycle sends the stream's current frame,
    or after a refusal the empty image. *)
Theorem camera_outcome_reaches_cycle w canvas r :
  videoRef (refs w) = Some {| srcObject := None |} ->
  canvasRef (refs w) = Some canvas ->
  isActive (state w) = false ->
  falsy (apiKey (state w)) = false ->
  let w1 := step w (CameraSettles r) in
  let started := run w1 [ClickToggle; Tick (next_timer (host w))] in
  status (state w1) = status (state w)
  /\ isActive (state w1) = false
  /\ lastMessage (state started) = str "Mom is watching..."
  /\ match r with
     | Fulfilled s =>
         lastMessage (state w1) = lastMessage (state w)
         /\ trace (host w1) = trace (host w)
         /\ (includes (frame_jpeg s) "," = false ->
             requests (trace (host started))
             = {| req_key := apiKey (state w);
                  req_prompt := prompt_of (mode (state w));
                  req_image :=
                    Some (if negb (Nat.eqb (frame_width s) 0
                                   || Nat.eqb (frame_height s) 0)
                          then frame_jpeg s else "") |}
               :: requests (trace (host w)))
     | Rejected e =>
         lastMessage (state w1) = str "Camera unavailable."
         /\ trace (host w1) = ConsoleError "Camera Error:" e :: trace (host w)
         /\ requests (trace (host started))
            = {| req_key := apiKey (state w);
                 req_prompt := prompt_of (mode (state w));
                 req_image := Some "" |}
              :: requests (trace (host w))
     end.
Proof.
  intros Hv Hc Ha Hk w1 started. subst w1 started. unfold run. cbn [fold_left].
  destruct r as [s|e].
  - rewrite (step_camera_attached _ _ _ Hv).
    rewrite step_start by (cbn; assumption).
    erewrite step_tick;
      [|cbn; apply lookup_insert_eq|cbn; reflexivity|cbn; exact Hc].
    cbn. repeat (split; [first [reflexivity | assumption]|]).
    intros Hj. unfold request_of. rewrite (capture_image _ Hj). reflexivity.
  - rewrite step_camera_refused.
    rewrite step_start by (cbn; assumption).
    erewrite step_tick;
      [|cbn; apply lookup_insert_eq|cbn; exact Hv|cbn; exact Hc].
    cbn. repeat (split; [first [reflexivity | assumption]|]). reflexivity.
Qed.

Lemma camera_outcome_reaches_cycle_witness :
  let w := mount "key" None None in
  let e := DOMException "NotAllowedError" in
  let w1 := step w (CameraSettles (Rejected e)) in
  let started := run w1 [ClickToggle; Tick 1] in
  status (state w1) = status (state w)
  /\ isActive (state w1) = false
  /\ lastMessage (state started) = str "Mom is watching..."
  /\ lastMessage (state w1) = str "Camera unavailable."
  /\ trace (host w1) = ConsoleError "Camera Error:" e :: trace (host w)
  /\ requests (trace (host started))
     = {| req_key := "key"; req_prompt := prompt_of homework;
          req_image := Some "" |}
       :: requests (trace (host w)).
Proof.
  apply (camera_outcome_reaches_cycle (mount "key" None None) watching_canvas
           (Rejected (DOMException "NotAllowedError")));
    reflexivity.
Defined.

(** ** What the user sees of a failure *)

(** X17: a failed cycle has no message of its own on screen.  After a
    cycle in which the client threw, the card shows the message it showed
    before the cycle, in the neutral colours it uses for [idle] and
    [analyzing]; badge, buttons and settings panel are as before. *)
Theorem failure_is_shown_in_neutral_colours
    w timer cl video canvas r body parsed e :
  timers (host w) !! timer = Some cl ->
  videoRef (refs w) = Some video ->
  canvasRef (refs w) = Some canvas ->
  client_throws r body parsed e ->
  let before := render w in
  let after := render (cycle w timer r body parsed) in
  status_line after = status_line before
  /\ card_border after = "border-slate-800"
  /\ status_colour after = "text-white"
  /\ card_border after = card_border (render (upd_state (set_status idle) w))
  /\ status_colour after = status_colour (render (upd_state (set_status idle) w))
  /\ badge after = badge before
  /\ mode_buttons after = mode_buttons before
  /\ main_button after = main_button before
  /\ settings_panel after = settings_panel before.
Proof.
  intros Hl Hv Hc Hthrow before after. subst before after.
  rewrite (cycle_throws _ _ _ _ _ _ _ _ _ Hl Hv Hc Hthrow).
  unfold render. cbn. auto 10.
Qed.

Lemma failure_is_shown_in_neutral_colours_witness :
  let w := cycle watching 1 (Fulfilled http_200)
             (Fulfilled (reply (verdict_text "good" "Well done")))
             (Normal (verdict "good" "Well done")) in
  let before := render w in
  let after := render (cycle w 1 (Rejected TypeError) (Rejected TypeError)
                         (Throw SyntaxError)) in
  status_line after = status_line before
  /\ card_border after = "border-slate-800"
  /\ status_colour after = "text-white"
  /\ card_border after = card_border (render (upd_state (set_status idle) w))
  /\ status_colour after = status_colour (render (upd_state (set_status idle) w))
  /\ badge after = badge before
  /\ mode_buttons after = mode_buttons before
  /\ main_button after = main_button before
  /\ settings_panel after = settings_panel before.
Proof.
  apply (failure_is_shown_in_neutral_colours
           (cycle watching 1 (Fulfilled http_200)
              (Fulfilled (reply (verdict_text "good" "Well done")))
              (Normal (verdict "good" "Well done")))
           1 watching_closure {| srcObject := Some camera |}
           {| width := 640; height := 480; bitmap := "/9j/4AAQSkZJRg" |}
           (Rejected TypeError) (Rejected TypeError) (Throw SyntaxError)
           TypeError);
    [vm_compute; reflexivity | vm_compute; reflexivity
    | vm_compute; reflexivity | apply fetch_rejects].
Defined.

Example happy_message_survives_failure :
  let w := cycle watching 1 (Fulfilled http_200)
             (Fulfilled (reply (verdict_text "good" "Well done")))
             (Normal (verdict "good" "Well done")) in
  status_line (render (cycle w 1 (Rejected TypeError) (Rejected TypeError)
                         (Throw SyntaxError)))
  = str "Mom is happy.".
Proof. vm_compute. reflexivity. Qed.
